(** * AA-Video-Downloader: the three back ends, embedded and verified

    The repository holds three small HTTP servers around one job, turning a
    video URL and a quality token into metadata and download links:

    - [app.py]            FastAPI server on the yt-dlp library   (Module [App]);
    - [backend.py]        http.server around a yt-dlp subprocess (Module [Backend]);
    - [simple_backend.py] http.server scraping the watch page    (Module [SimpleBackend]).

    Each Python function the properties below talk about is written here as a
    Rocq function of the same name.  The extraction tool, the subprocess and
    the page fetch are inputs of those functions (their outcome is an
    argument), Python exceptions are an explicit [Raise] result, and the
    built-ins of [str], [re] and [urllib] the code calls are written out in
    Module [Py].

    Strings are [string]: sequences of 8-bit characters, read as the code
    points U+0000..U+00FF. *)

From Stdlib Require Import ZArith NArith String Ascii List Bool Lia.
From stdpp Require Import base decidable option list sorting strings pretty gmap.

Local Open Scope string_scope.
Local Open Scope Z_scope.

(** ** Python built-ins *)

Module Py.

(** *** Exceptions *)

(** The exception classes the servers meet.  All of them derive from
    Python's [Exception], so [except Exception] and a bare [except] catch
    every one. *)
Inductive exn_class : Type :=
  | Exception
  | IndexError
  | TypeError
  | ValueError
  | TimeoutExpired
  | FileNotFoundError
  | CalledProcessError.

(** A raised exception: its class and [str(e)]. *)
Record exn : Type := Exn { exn_cls : exn_class; exn_str : string }.

(** The outcome of a call: a value, or an exception in flight. *)
Inductive result (A : Type) : Type :=
  | Ok (a : A)
  | Raise (e : exn).
Arguments Ok {A} a.
Arguments Raise {A} e.

Definition bind {A B : Type} (r : result A) (k : A -> result B) : result B :=
  match r with
  | Ok a => k a
  | Raise e => Raise e
  end.

(** *** Dictionary fields *)

(** One key of a JSON object as Python sees it: the key may be missing, may
    hold [None] (JSON null), or may hold a value. *)
Inductive field (A : Type) : Type :=
  | Absent
  | Null
  | Val (a : A).
Arguments Absent {A}.
Arguments Null {A}.
Arguments Val {A} a.

(** [d.get(key, default)]: the default only replaces a missing key; a key
    holding [None] yields [None].  [None] is the Python value [None]. *)
Definition get {A : Type} (f : field A) (default : option A) : option A :=
  match f with
  | Absent => default
  | Null => None
  | Val a => Some a
  end.

(** [key in d]. *)
Definition has_key {A : Type} (f : field A) : bool :=
  match f with
  | Absent => false
  | _ => true
  end.

(** *** Characters *)

Definition code (c : ascii) : N := N_of_ascii c.

(** [str.isdigit] on U+0000..U+00FF: the decimal digits, and the superscript
    digits U+00B2, U+00B3 and U+00B9. *)
Definition isdigit (c : ascii) : bool :=
  let n := code c in
  ((48 <=? n) && (n <=? 57) || (n =? 178) || (n =? 179) || (n =? 185))%N.

(** [str.isspace] on U+0000..U+00FF, the characters [str.strip()] removes. *)
Definition isspace (c : ascii) : bool :=
  let n := code c in
  ((9 <=? n) && (n <=? 13) || (28 <=? n) && (n <=? 32) || (n =? 133) || (n =? 160))%N.

Definition newline : ascii := ascii_of_N 10.

(** *** Strings *)

(** [s.startswith(p)], returning what follows the prefix. *)
Fixpoint strip_prefix (p s : string) : option string :=
  match p with
  | EmptyString => Some s
  | String a p' =>
      match s with
      | EmptyString => None
      | String b s' => if Ascii.eqb a b then strip_prefix p' s' else None
      end
  end.

Definition startswith (p s : string) : bool :=
  match strip_prefix p s with
  | Some _ => true
  | None => false
  end.

(** [sub in s]. *)
Fixpoint contains (sub s : string) : bool :=
  startswith sub s ||
  match s with
  | EmptyString => false
  | String _ s' => contains sub s'
  end.

(** [s.split(sep)] for a non-empty [sep]: cut at every occurrence of [sep],
    scanning left to right; [skip] counts the characters of an occurrence
    still to be passed over.  The result has at least one piece. *)
Fixpoint split_from (sep : string) (skip : nat) (s : string) : list string :=
  match s with
  | EmptyString => [EmptyString]
  | String c s' =>
      match skip with
      | S k => split_from sep k s'
      | O =>
          if startswith sep s
          then EmptyString :: split_from sep (Nat.pred (String.length sep)) s'
          else match split_from sep 0 s' with
               | piece :: rest => String c piece :: rest
               | [] => [String c EmptyString]
               end
      end
  end.

Definition split (sep s : string) : list string := split_from sep 0 s.

(** [sep.join(pieces)]. *)
Fixpoint join (sep : string) (pieces : list string) : string :=
  match pieces with
  | [] => EmptyString
  | [p] => p
  | p :: rest => p ++ sep ++ join sep rest
  end.

(** [s.replace(old, new)] for a non-empty [old]: every occurrence, left to
    right, without overlap. *)
Definition replace (old new s : string) : string := join new (split old s).

(** [l[i]] on a list: [IndexError] out of range. *)
Definition index {A : Type} (l : list A) (i : nat) : result A :=
  match nth_error l i with
  | Some a => Ok a
  | None => Raise (Exn IndexError "list index out of range")
  end.

(** [d.get(key, default)] on a dictionary of lists. *)
Definition default_list {A : Type} (o : option (list A)) (default : list A) : list A :=
  match o with
  | Some l => l
  | None => default
  end.

(** [l[0]] of a list known to be non-empty (every [split] result is). *)
Definition first (l : list string) : string :=
  match l with
  | piece :: _ => piece
  | [] => EmptyString
  end.

(** [''.join(filter(p, s))]. *)
Fixpoint filter_chars (p : ascii -> bool) (s : string) : string :=
  match s with
  | EmptyString => EmptyString
  | String c s' => if p c then String c (filter_chars p s') else filter_chars p s'
  end.

Fixpoint lstrip (s : string) : string :=
  match s with
  | EmptyString => EmptyString
  | String c s' => if isspace c then lstrip s' else s
  end.

Fixpoint rstrip (s : string) : string :=
  match s with
  | EmptyString => EmptyString
  | String c s' =>
      match rstrip s' with
      | EmptyString => if isspace c then EmptyString else String c EmptyString
      | rest => String c rest
      end
  end.

(** [s.strip()]. *)
Definition strip (s : string) : string := rstrip (lstrip s).

(** [str(n)] and [f"{n}"] of an integer. *)
Definition str_int (n : Z) : string := pretty n.

(** *** Regular expressions *)

(** The greedy run [[^...]*] of a negated character class at the head of
    [s], and what follows it; [stop] tells the excluded characters. *)
Fixpoint span (stop : ascii -> bool) (s : string) : string * string :=
  match s with
  | EmptyString => (EmptyString, EmptyString)
  | String c s' =>
      if stop c then (EmptyString, s)
      else let '(run, rest) := span stop s' in (String c run, rest)
  end.

(** [re.search]: the match at the leftmost position where the pattern
    matches; [at_head] matches the pattern anchored at the head of its
    argument and returns group 1. *)
Fixpoint search (at_head : string -> option string) (s : string) : option string :=
  match at_head s with
  | Some group => Some group
  | None =>
      match s with
      | EmptyString => None
      | String _ s' => search at_head s'
      end
  end.

(** *** urllib.parse.quote *)

Definition hex_digit (n : N) : ascii :=
  ascii_of_N (if (n <? 10)%N then 48 + n else 55 + n)%N.

(** [%XX] for one byte, in upper-case hexadecimal. *)
Definition percent (byte : N) : string :=
  String "%" (String (hex_digit (byte / 16)) (String (hex_digit (byte mod 16)) EmptyString)).

(** The characters [quote] never escapes: letters, digits, [_.-~], and the
    default [safe='/']. *)
Definition quote_safe (c : ascii) : bool :=
  let n := code c in
  ((65 <=? n) && (n <=? 90) || (97 <=? n) && (n <=? 122) || (48 <=? n) && (n <=? 57)
   || (n =? 95) || (n =? 46) || (n =? 45) || (n =? 126) || (n =? 47))%N.

(** [urllib.parse.quote(s)]: every other character is percent-escaped byte
    by byte in its UTF-8 encoding (two bytes from U+0080 on). *)
Fixpoint quote (s : string) : string :=
  match s with
  | EmptyString => EmptyString
  | String c s' =>
      let n := code c in
      (if quote_safe c then String c EmptyString
       else if (n <? 128)%N then percent n
       else percent (192 + n / 64) ++ percent (128 + n mod 64)) ++ quote s'
  end.

(** *** list.sort *)

(** One insertion of [x], which stood before everything of [l] in the
    unsorted list, into the descending [l]: it goes in front of the first
    element whose key is not greater, so equal keys keep their order. *)
Fixpoint insert_reverse {A : Type} (key : A -> Z) (x : A) (l : list A) : list A :=
  match l with
  | [] => [x]
  | y :: l' => if key x <? key y then y :: insert_reverse key x l' else x :: l
  end.

(** [l.sort(key=key, reverse=True)]: a stable sort, largest key first. *)
Definition sort_reverse {A : Type} (key : A -> Z) (l : list A) : list A :=
  foldr (insert_reverse key) [] l.

(** *** JSON values, as [json.dumps] writes them and FastAPI returns them *)

#[local] Set Warnings "-register-all".
Inductive json : Type :=
  | JNull
  | JBool (b : bool)
  | JInt (n : Z)
  | JStr (s : string)
  | JList (items : list json)
  | JObj (members : list (string * json)).

(** [d.get(key)] on a dictionary written as its members in insertion order. *)
Fixpoint lookup_key (key : string) (members : list (string * json)) : option json :=
  match members with
  | [] => None
  | (k, v) :: rest => if String.eqb k key then Some v else lookup_key key rest
  end.

Definition member (key : string) (j : json) : option json :=
  match j with
  | JObj members => lookup_key key members
  | _ => None
  end.

(** The keys of a dictionary, in order. *)
Definition keys (j : json) : list string :=
  match j with
  | JObj members => map fst members
  | _ => []
  end.

Definition json_str (o : option string) : json :=
  match o with
  | Some s => JStr s
  | None => JNull
  end.

Definition json_int (o : option Z) : json :=
  match o with
  | Some n => JInt n
  | None => JNull
  end.

(** [a or b] on optional values: the first that is there. *)
Definition orelse {A : Type} (a b : option A) : option A :=
  match a with
  | Some _ => a
  | None => b
  end.

Definition json_any (o : option json) : json :=
  match o with
  | Some j => j
  | None => JNull
  end.

(** *** More of [str] and [os.path] *)

(** [str.isalnum] on U+0000..U+00FF: the letters and digits of ASCII, the
    ordinal indicators, the micro sign, the superscript digits, the vulgar
    fractions and the accented letters. *)
Definition isalnum (c : ascii) : bool :=
  let n := code c in
  ((48 <=? n) && (n <=? 57) || (65 <=? n) && (n <=? 90) || (97 <=? n) && (n <=? 122)
   || (n =? 170) || (178 <=? n) && (n <=? 179) || (n =? 181)
   || (185 <=? n) && (n <=? 186) || (188 <=? n) && (n <=? 190)
   || (192 <=? n) && (n <=? 214) || (216 <=? n) && (n <=? 246) || (248 <=? n))%N.

(** [s[:n]]. *)
Fixpoint prefix_chars (n : nat) (s : string) : string :=
  match n, s with
  | S n', String c s' => String c (prefix_chars n' s')
  | _, _ => EmptyString
  end.

(** [s.endswith(p)]. *)
Fixpoint endswith (p s : string) : bool :=
  String.eqb s p ||
  match s with
  | EmptyString => false
  | String _ s' => endswith p s'
  end.

(** [os.path.join(a, b)] of [posixpath]. *)
Definition path_join (a b : string) : string :=
  if startswith "/" b then b
  else if String.eqb a "" || endswith "/" a then a ++ b
  else a ++ "/" ++ b.

(** The double quote as a string. *)
Definition dquote : string := String (ascii_of_N 34) EmptyString.

End Py.

Export Py.


(** [x ← r; k] runs [k] on the value of [r] and passes an exception on. *)
#[global] Instance result_bind : MBind Py.result := fun A B k r => Py.bind r k.


(** ** What the extraction tool hands over, and what the servers answer *)

(** One entry of yt-dlp's [formats] list, with the keys the servers read.
    [fmt_height] and [fmt_filesize] are integers where present. *)
Record format : Type := Format {
  fmt_vcodec : field string;
  fmt_height : field Z;
  fmt_format_id : field string;
  fmt_ext : field string;
  fmt_filesize : field Z;
  fmt_url : field string
}.

(** The info dictionary of yt-dlp.  The keys that are only passed on hold
    any JSON value. *)
Record info : Type := Info {
  info_title : field json;
  info_description : field json;
  info_duration : field json;
  info_thumbnail : field json;
  info_uploader : field json;
  info_view_count : field json;
  info_formats : field (list format);
  info_url : field json
}.

(** The dictionary both format normalizers build per kept format. *)
Record format_entry : Type := FormatEntry {
  format_id : option string;
  quality : string;
  height : Z;
  ext : option string;
  filesize : option Z
}.

(** A key that is present, holding [None] or a value. *)
Definition field_of {A : Type} (o : option A) : field A :=
  match o with
  | Some a => Val a
  | None => Null
  end.

(** A format entry read back as an input of the normalizers: its five keys
    are all present, and it has no [vcodec] and no [url] key. *)
Definition as_format (e : format_entry) : format :=
  {| fmt_vcodec := Absent;
     fmt_height := Val (height e);
     fmt_format_id := field_of (format_id e);
     fmt_ext := field_of (ext e);
     fmt_filesize := field_of (filesize e);
     fmt_url := Absent |}.

(** [for fmt in formats] over the value of the [formats] key: [None] is not
    iterable. *)
Definition iterable {A : Type} (o : option (list A)) : result (list A) :=
  match o with
  | Some l => Ok l
  | None => Raise (Exn TypeError "'NoneType' object is not iterable")
  end.

(** The answer of a server: the status line and the JSON body. *)
Record response : Type := Response { status : Z; body : json }.

(** A request after [urlparse] and [parse_qs]. *)
Record request : Type := Request { path : string; query : gmap string (list string) }.

(** ** backend.py: the subprocess variant *)

Module Backend.

(** [subprocess.CompletedProcess]. *)
Record completed : Type := Completed { returncode : Z; stdout : string; stderr : string }.

(** The machine the handler runs on.  [ensure_ytdlp_installed] (lines
    171-177) only runs the version probe and, when that fails, pip; its
    outcome is nothing or an exception.  [run] is
    [subprocess.run(cmd, capture_output=True, text=True, timeout=30)] and
    [loads] is [json.loads] read as an info dictionary. *)
Record system : Type := System {
  ensure_ytdlp_installed : result unit;
  run : list string -> result completed;
  loads : string -> result info
}.

(** Lines 135-141: the dictionary appended for a kept format. *)
Definition entry (fmt : format) (h : Z) : format_entry :=
  {| format_id := get (fmt_format_id fmt) (Some "");
     quality := str_int h ++ "p";
     height := h;
     ext := get (fmt_ext fmt) (Some "mp4");
     filesize := get (fmt_filesize fmt) (Some 0) |}.

(** The dictionary as [json.dumps] writes it, keys in the order of lines
    136-140. *)
Definition entry_json (e : format_entry) : json :=
  JObj [("format_id", json_str (format_id e)); ("quality", JStr (quality e));
        ("height", JInt (height e)); ("ext", json_str (ext e));
        ("filesize", json_int (filesize e))].

(** Lines 132-142: the body of the loop, on [extracted_formats] and
    [seen_qualities]. *)
Definition extract_formats_step (st : list format_entry * gset Z) (fmt : format)
    : list format_entry * gset Z :=
  let '(extracted_formats, seen_qualities) := st in
  if bool_decide (get (fmt_vcodec fmt) None = Some "none") then st
  else
    match get (fmt_height fmt) (Some 0) with
    | Some h =>
        if bool_decide (h ≠ 0 ∧ h ∉ seen_qualities)
        then ((extracted_formats ++ [entry fmt h])%list, {[h]} ∪ seen_qualities)
        else st
    | None => st
    end.

(** [extract_formats] (lines 126-146). *)
Definition extract_formats (formats : list format) : list format_entry :=
  let '(extracted_formats, _) := fold_left extract_formats_step formats ([], ∅) in
  take 5 (sort_reverse height extracted_formats).

(** [extract_video_id] (lines 160-169). *)
Definition extract_video_id (url : string) : result string :=
  if contains "youtube.com" url then
    if contains "v=" url then
      piece ← index (split "v=" url) 1; Ok (first (split "&" piece))
    else if contains "/embed/" url then
      piece ← index (split "/embed/" url) 1; Ok (first (split "?" piece))
    else Ok ""
  else if contains "youtu.be" url then
    piece ← index (split "youtu.be/" url) 1; Ok (first (split "?" piece))
  else Ok "".

(** [generate_fallback_urls] (lines 148-158); the dictionary is written as
    its items in order. *)
Definition generate_fallback_urls (url : string) : result (list (string * string)) :=
  let encoded_url := replace "=" "%3D" (replace "&" "%26" url) in
  video_id ← extract_video_id url;
  Ok [("savefrom", "https://savefrom.net/#url=" ++ encoded_url);
      ("y2mate", "https://www.y2mate.com/youtube/" ++ video_id);
      ("keepvid", "https://keepvid.com/?url=" ++ encoded_url);
      ("clipconverter", "https://www.clipconverter.cc/2/#url=" ++ encoded_url);
      ("onlinevideoconverter", "https://www.onlinevideoconverter.com/success?url=" ++ encoded_url)].

Definition fallback_json (urls : list (string * string)) : json :=
  JObj (map (fun kv => (fst kv, JStr (snd kv))) urls).

(** [get_video_info] (lines 75-102). *)
Definition get_video_info (sys : system) (url : string) : result json :=
  let attempt : result json :=
    _ ← ensure_ytdlp_installed sys;
    result ← run sys ["yt-dlp"; "--dump-json"; "--no-download"; url];
    if returncode result =? 0 then
      info ← loads sys (first (split (String newline "") (stdout result)));
      formats ← iterable (get (info_formats info) (Some []));
      Ok (JObj [("title", json_any (get (info_title info) (Some (JStr "Unknown Title"))));
                ("thumbnail", json_any (get (info_thumbnail info) (Some (JStr ""))));
                ("duration", json_any (get (info_duration info) (Some (JInt 0))));
                ("description", json_any (get (info_description info) (Some (JStr ""))));
                ("formats", JList (map entry_json (extract_formats formats)));
                ("success", JBool true)])
    else Raise (Exn Exception ("yt-dlp error: " ++ stderr result)) in
  match attempt with
  | Ok v => Ok v
  | Raise e =>
      match exn_cls e with
      | TimeoutExpired =>
          Raise (Exn Exception "Request timeout - video processing took too long")
      | FileNotFoundError =>
          Raise (Exn Exception "yt-dlp not found - please install it")
      | _ => Raise (Exn Exception ("Video info extraction failed: " ++ exn_str e))
      end
  end.

(** Line 110: the format selector of [get_download_url]. *)
Definition format_selector (quality : string) : string :=
  if bool_decide (quality ∈ ["best"; "worst"]) then quality
  else "best[height<=" ++ quality ++ "]".

(** [get_download_url] (lines 104-124). *)
Definition get_download_url (sys : system) (url quality : string) : result string :=
  let attempt : result string :=
    _ ← ensure_ytdlp_installed sys;
    result ← run sys ["yt-dlp"; "--get-url"; "-f"; format_selector quality; url];
    if returncode result =? 0 then
      Ok (first (split (String newline "") (strip (stdout result))))
    else Raise (Exn Exception ("yt-dlp error: " ++ stderr result)) in
  match attempt with
  | Ok v => Ok v
  | Raise e =>
      match exn_cls e with
      | TimeoutExpired =>
          Raise (Exn Exception "Request timeout - download URL generation took too long")
      | _ => Raise (Exn Exception ("Download URL generation failed: " ++ exn_str e))
      end
  end.

(** [query_params.get(key, [default])[0]]. *)
Definition param (req : request) (key default : string) : result string :=
  index (default_list (query req !! key) [default]) 0.

(** [do_GET] (lines 20-65).  The status line and the headers go out first,
    always with status 200; the result is the body written after them, or
    the exception that leaves the handler with no body written. *)
Definition do_GET (sys : system) (req : request) : result response :=
  body ←
    (if String.eqb (path req) "/video-info" then
       url ← param req "url" "";
       if negb (String.eqb url "") then
         match get_video_info sys url with
         | Ok info => Ok info
         | Raise e =>
             fallback ← generate_fallback_urls url;
             Ok (JObj [("error", JStr ("Failed to get video info: " ++ exn_str e));
                       ("fallback_urls", fallback_json fallback)])
         end
       else Ok (JObj [("error", JStr "No URL provided")])
     else if String.eqb (path req) "/download" then
       url ← param req "url" "";
       quality ← param req "quality" "best";
       if negb (String.eqb url "") then
         match get_download_url sys url quality with
         | Ok download_url => Ok (JObj [("download_url", JStr download_url)])
         | Raise e =>
             fallback ← generate_fallback_urls url;
             Ok (JObj [("error", JStr ("Failed to get download URL: " ++ exn_str e));
                       ("fallback_urls", fallback_json fallback)])
         end
       else Ok (JObj [("error", JStr "No URL provided")])
     else Ok (JObj [("error", JStr "Invalid endpoint")]));
  Ok {| status := 200; body := body |}.

End Backend.

(** ** app.py: the full server *)

Module App.

(** [raise HTTPException(status_code, detail)] as FastAPI answers it. *)
Definition HTTPException (status_code : Z) (detail : string) : response :=
  {| status := status_code; body := JObj [("detail", JStr detail)] |}.

(** [yt_dlp.YoutubeDL(ydl_opts).extract_info(url, download)]: the options,
    the URL and the download flag in, an info dictionary or an exception
    out. *)
Definition extractor : Type := list (string * json) -> string -> bool -> result info.

(** Lines 67-73: the dictionary appended for a kept format. *)
Definition entry (fmt : format) (h : Z) : format_entry :=
  {| quality := str_int h ++ "p";
     height := h;
     ext := get (fmt_ext fmt) (Some "mp4");
     filesize := get (fmt_filesize fmt) None;
     format_id := get (fmt_format_id fmt) None |}.

(** The dictionary as FastAPI writes it, keys in the order of lines 68-72. *)
Definition entry_json (e : format_entry) : json :=
  JObj [("quality", JStr (quality e)); ("height", JInt (height e));
        ("ext", json_str (ext e)); ("filesize", json_int (filesize e));
        ("format_id", json_str (format_id e))].

(** Lines 64-74: the body of the loop, on [formats] and [seen_qualities]. *)
Definition collect_step (st : list format_entry * gset Z) (fmt : format)
    : list format_entry * gset Z :=
  let '(formats, seen_qualities) := st in
  if bool_decide (get (fmt_vcodec fmt) None = Some "none") then st
  else
    match get (fmt_height fmt) (Some 0) with
    | Some h =>
        if bool_decide (h ≠ 0 ∧ h ∉ seen_qualities)
        then ((formats ++ [entry fmt h])%list, {[h]} ∪ seen_qualities)
        else st
    | None => st
    end.

(** Lines 62-77: the loop over [info['formats']] and the sort. *)
Definition collect_formats (raw : list format) : list format_entry :=
  let '(formats, _) := fold_left collect_step raw ([], ∅) in
  sort_reverse height formats.

(** Lines 60-77: [formats] as it stands before the answer is built. *)
Definition info_entries (info : info) : result (list format_entry) :=
  if has_key (info_formats info) then
    raw ← iterable (get (info_formats info) None); Ok (collect_formats raw)
  else Ok [].

(** [get_video_info] (lines 46-92), the handler of [/info]. *)
Definition get_video_info (extract_info : extractor) (url : string) : response :=
  let ydl_opts := [("quiet", JBool true); ("no_warnings", JBool true);
                   ("extract_flat", JBool false)] in
  let attempt : result json :=
    info ← extract_info ydl_opts url false;
    formats ← info_entries info;
    Ok (JObj [("success", JBool true);
              ("title", json_any (get (info_title info) (Some (JStr "Unknown"))));
              ("description", json_any (get (info_description info) (Some (JStr ""))));
              ("duration", json_any (get (info_duration info) (Some (JInt 0))));
              ("thumbnail", json_any (get (info_thumbnail info) (Some (JStr ""))));
              ("uploader", json_any (get (info_uploader info) (Some (JStr ""))));
              ("view_count", json_any (get (info_view_count info) (Some (JInt 0))));
              ("formats", JList (map entry_json (take 10 formats)));
              ("url", JStr url)]) in
  match attempt with
  | Ok answer => {| status := 200; body := answer |}
  | Raise e => HTTPException 400 ("Failed to extract info: " ++ exn_str e)
  end.

(** Lines 106-122 of [download_video]: the quality token resolved to the
    format selector and the file extension. *)
Definition download_video_quality (quality : string) : string * string :=
  if bool_decide (quality ∈ ["audio"; "mp3"]) then ("bestaudio/best", "mp3")
  else if bool_decide (quality ∈ ["best"; "worst"]) then (quality, "mp4")
  else
    let height := filter_chars isdigit quality in
    if negb (String.eqb height "") then ("best[height<=" ++ height ++ "]", "mp4")
    else ("best", "mp4").

(** Lines 180-186 of [stream_video_url]: the format selector. *)
Definition stream_format_selector (quality : string) : string :=
  if bool_decide (quality ∈ ["audio"; "mp3"]) then "bestaudio/best"
  else if bool_decide (quality ∈ ["best"; "worst"]) then quality
  else
    let height := filter_chars isdigit quality in
    if negb (String.eqb height "") then "best[height<=" ++ height ++ "]" else "best".

(** Lines 198-205 of [stream_video_url]: the direct URL. *)
Definition stream_url_of (info : info) : result json :=
  if has_key (info_url info) then Ok (json_any (get (info_url info) None))
  else
    match info_formats info with
    | Val (fmt :: formats) =>
        let best_format := List.last formats fmt in
        Ok (json_str (get (fmt_url best_format) (Some "")))
    | _ => Raise (Exn Exception "No stream URL found")
    end.

(** [stream_video_url] (lines 172-217), the handler of [/stream]. *)
Definition stream_video_url (extract_info : extractor) (url quality : string) : response :=
  let ydl_opts := [("quiet", JBool true); ("no_warnings", JBool true);
                   ("format", JStr (stream_format_selector quality))] in
  let attempt : result json :=
    info ← extract_info ydl_opts url false;
    stream_url ← stream_url_of info;
    Ok (JObj [("success", JBool true);
              ("stream_url", stream_url);
              ("title", json_any (get (info_title info) (Some (JStr "Video"))));
              ("duration", json_any (get (info_duration info) (Some (JInt 0))));
              ("quality", JStr quality);
              ("direct_download", JBool true)]) in
  match attempt with
  | Ok answer => {| status := 200; body := answer |}
  | Raise e => HTTPException 400 ("Stream URL extraction failed: " ++ exn_str e)
  end.

(** What [download_video] asks of the machine besides the extraction:
    [str(uuid.uuid4())], [tempfile.mkdtemp()], [os.listdir], [os.path.exists]
    and [os.path.getsize] as they answer after the download, and
    [format_title], the text that formatting [title[:50]] gives for a title
    that is a list or a dictionary. *)
Record filesystem : Type := Filesystem {
  uuid4 : string;
  mkdtemp : result string;
  listdir : string -> result (list string);
  path_exists : string -> bool;
  getsize : string -> result Z;
  format_title : json -> result string
}.

(** [FileResponse(path, media_type, filename, headers)]. *)
Record file_response : Type := FileResponse {
  served_path : string;
  media_type : string;
  filename : string;
  headers : list (string * string)
}.

(** What [/download] answers: the file, or the error envelope. *)
Inductive download_answer : Type :=
  | Served (file : file_response)
  | Refused (r : response).

(** Lines 124-137: the options handed to yt-dlp. *)
Definition download_options (output_template format_selector quality : string)
    : list (string * json) :=
  let ydl_opts := [("outtmpl", JStr output_template); ("format", JStr format_selector);
                   ("quiet", JBool true); ("no_warnings", JBool true)] in
  if bool_decide (quality ∈ ["audio"; "mp3"])
  then (ydl_opts ++
        [("postprocessors",
          JList [JObj [("key", JStr "FFmpegExtractAudio");
                       ("preferredcodec", JStr "mp3");
                       ("preferredquality", JStr "192")]])])%list
  else ydl_opts.

(** Lines 143-147: the first listed file whose name starts with [file_id],
    joined to the directory. *)
Fixpoint find_downloaded (temp_dir file_id : string) (files : list string)
    : option string :=
  match files with
  | [] => None
  | file :: rest =>
      if startswith file_id file then Some (path_join temp_dir file)
      else find_downloaded temp_dir file_id rest
  end.

(** [info.get('title', 'video')[:50]] as the f-string of line 154 formats
    it: [None], an integer and a boolean cannot be sliced. *)
Definition title_prefix (fs : filesystem) (title : option json) : result string :=
  match title with
  | Some (JStr s) => Ok (prefix_chars 50 s)
  | None | Some JNull =>
      Raise (Exn TypeError "'NoneType' object is not subscriptable")
  | Some (JInt _) => Raise (Exn TypeError "'int' object is not subscriptable")
  | Some (JBool _) => Raise (Exn TypeError "'bool' object is not subscriptable")
  | Some other => format_title fs other
  end.

(** The characters line 157 keeps. *)
Definition keep_char (c : ascii) : bool :=
  isalnum c || Ascii.eqb c " " || Ascii.eqb c "-" || Ascii.eqb c "_" || Ascii.eqb c ".".

(** Line 157: the file name cleaned. *)
Definition clean_filename (name : string) : string :=
  rstrip (filter_chars keep_char name).

(** [download_video] (lines 94-170), the handler of [/download]. *)
Definition download_video (fs : filesystem) (extract_info : extractor)
    (url quality : string) : download_answer :=
  let attempt : result file_response :=
    let file_id := prefix_chars 8 (uuid4 fs) in
    temp_dir ← mkdtemp fs;
    let '(format_selector, ext) := download_video_quality quality in
    let output_template := path_join temp_dir (file_id ++ ".%(ext)s") in
    let ydl_opts := download_options output_template format_selector quality in
    info ← extract_info ydl_opts url true;
    files ← listdir fs temp_dir;
    match find_downloaded temp_dir file_id files with
    | None => Raise (Exn Exception "Downloaded file not found")
    | Some downloaded_file =>
        if String.eqb downloaded_file "" || negb (path_exists fs downloaded_file)
        then Raise (Exn Exception "Downloaded file not found")
        else
          file_size ← getsize fs downloaded_file;
          title ← title_prefix fs (get (info_title info) (Some (JStr "video")));
          let name := clean_filename (title ++ "." ++ ext) in
          Ok {| served_path := downloaded_file;
                media_type := (if String.eqb ext "mp3" then "audio" else "video")
                              ++ "/" ++ ext;
                filename := name;
                headers := [("Content-Length", str_int file_size);
                            ("Content-Disposition",
                             "attachment; filename=" ++ dquote ++ name ++ dquote)] |}
    end in
  match attempt with
  | Ok file => Served file
  | Raise e => Refused (HTTPException 500 ("Download failed: " ++ exn_str e))
  end.

End App.

(** ** simple_backend.py: the scrape-only variant *)

Module SimpleBackend.

(** The class [[&\n?#]] both identifier patterns exclude. *)
Definition id_stop (c : ascii) : bool :=
  Ascii.eqb c "&" || Ascii.eqb c newline || Ascii.eqb c "?" || Ascii.eqb c "#".

(** The group [([^&\n?#]+)] that ends both patterns: the greedy run, which
    must not be empty. *)
Definition id_group (s : string) : option string :=
  let '(run, _) := span id_stop s in
  if String.eqb run "" then None else Some run.

(** A literal followed by the identifier group, anchored at the head. *)
Definition shape (literal s : string) : option string :=
  match strip_prefix literal s with
  | Some rest => id_group rest
  | None => None
  end.

(** Line 108, anchored: the three alternatives are tried in order. *)
Definition pattern1 (s : string) : option string :=
  orelse (shape "youtube.com/watch?v=" s)
    (orelse (shape "youtu.be/" s) (shape "youtube.com/embed/" s)).

(** [.*v=([^&\n?#]+)] anchored: the greedy [.*] passes over as many
    characters as it can, a newline excepted, and gives them back one by one
    until [v=] and the group match. *)
Fixpoint dots_then_v (s : string) : option string :=
  match s with
  | EmptyString => shape "v=" s
  | String c s' =>
      if Ascii.eqb c newline then shape "v=" s
      else orelse (dots_then_v s') (shape "v=" s)
  end.

(** Line 109, anchored. *)
Definition pattern2 (s : string) : option string :=
  match strip_prefix "youtube.com/watch?" s with
  | Some rest => dots_then_v rest
  | None => None
  end.

(** [extract_youtube_id] (lines 105-116); [None] is Python's [None]. *)
Definition extract_youtube_id (url : string) : option string :=
  orelse (search pattern1 url) (search pattern2 url).

(** Line 134, anchored: [<title>([^<]+)</title>].  The group can only end
    where its greedy run ends, since a shorter run is followed by a
    character that is not [<]. *)
Definition title_pattern (s : string) : option string :=
  match strip_prefix "<title>" s with
  | Some rest =>
      let '(run, after) := span (Ascii.eqb "<") rest in
      if negb (String.eqb run "") && startswith "</title>" after then Some run else None
  | None => None
  end.

(** The page fetch of lines 123-131: the request, the unverified TLS
    context, [urlopen], [read] and [decode('utf-8')]; the page text or
    whichever exception one of them raises. *)
Definition fetcher : Type := string -> result string.

(** [get_youtube_info] (lines 118-142); the result is the dictionary with
    the one key [title]. *)
Definition get_youtube_info (fetch : fetcher) (video_id : string) : result json :=
  let attempt : result json :=
    let url := "https://www.youtube.com/watch?v=" ++ video_id in
    html ← fetch url;
    let title_match := search title_pattern html in
    let title :=
      match title_match with
      | Some group => group
      | None => "Video " ++ video_id
      end in
    let title := strip (replace " - YouTube" "" title) in
    Ok (JObj [("title", JStr title)]) in
  match attempt with
  | Ok v => Ok v
  | Raise _ => Ok (JObj [("title", JStr ("Video " ++ video_id))])
  end.

(** [send_error_response] (lines 164-170): the body it writes. *)
Definition send_error_response (message : string) : json :=
  JObj [("success", JBool false); ("error", JStr message)].

(** [if not video_id]. *)
Definition falsy (video_id : option string) : bool :=
  match video_id with
  | None => true
  | Some s => String.eqb s ""
  end.

Definition id_text (video_id : option string) : string := default "None" video_id.

(** [handle_video_info] (lines 47-77): the body it writes. *)
Definition handle_video_info (fetch : fetcher) (query_params : gmap string (list string))
    : result json :=
  match query_params !! "url" with
  | None => Ok (send_error_response "URL parameter required")
  | Some values =>
      video_url ← index values 0;
      let video_id := extract_youtube_id video_url in
      if falsy video_id then Ok (send_error_response "Invalid YouTube URL")
      else
        let attempt : result json :=
          info ← get_youtube_info fetch (id_text video_id);
          Ok (JObj [("success", JBool true);
                    ("video_id", json_str video_id);
                    ("title", json_any (orelse (member "title" info) (Some (JStr "Video"))));
                    ("thumbnail",
                     JStr ("https://i.ytimg.com/vi/" ++ id_text video_id ++ "/hqdefault.jpg"));
                    ("formats",
                     JList [JObj [("quality", JStr "mp3"); ("ext", JStr "mp3"); ("height", JInt 0)];
                            JObj [("quality", JStr "360p"); ("ext", JStr "mp4"); ("height", JInt 360)];
                            JObj [("quality", JStr "720p"); ("ext", JStr "mp4"); ("height", JInt 720)];
                            JObj [("quality", JStr "1080p"); ("ext", JStr "mp4"); ("height", JInt 1080)]])]) in
        match attempt with
        | Ok answer => Ok answer
        | Raise e => Ok (send_error_response ("Failed to get video info: " ++ exn_str e))
        end
  end.

(** [generate_download_urls] (lines 144-162). *)
Definition generate_download_urls (video_url quality : string) : list string :=
  let encoded_url := quote video_url in
  let video_id := extract_youtube_id video_url in
  let urls : list string := [] in
  let urls :=
    (urls ++ ["https://vkrdownloader.xyz/server/dl.php?vkr=" +:+ encoded_url
                +:+ "&q=" +:+ quality])%list in
  let urls :=
    if negb (falsy video_id)
    then ((urls ++ ["https://www.y2mate.com/youtube/" +:+ id_text video_id])
            ++ ["https://savefrom.net/#url=" +:+ encoded_url])%list
    else urls in
  let urls :=
    (urls ++ ["https://vkrdownloader.xyz/server/force.php?vkr=" +:+ encoded_url
                +:+ "&q=" +:+ quality])%list in
  urls.

(** [handle_download] (lines 79-103): the body it writes. *)
Definition handle_download (query_params : gmap string (list string)) : result json :=
  match query_params !! "url" with
  | None => Ok (send_error_response "URL parameter required")
  | Some values =>
      video_url ← index values 0;
      quality ← index (default_list (query_params !! "quality") ["720"]) 0;
      let video_id := extract_youtube_id video_url in
      if falsy video_id then Ok (send_error_response "Invalid YouTube URL")
      else
        let download_urls := generate_download_urls video_url quality in
        Ok (JObj [("success", JBool true);
                  ("download_url",
                   match download_urls with
                   | url :: _ => JStr url
                   | [] => JNull
                   end);
                  ("alternative_urls", JList (map JStr download_urls));
                  ("quality", JStr quality)])
  end.

(** [do_GET] (lines 19-37): status 200 and the headers first, then the body
    of the endpoint. *)
Definition do_GET (fetch : fetcher) (req : request) : result response :=
  body ←
    (if String.eqb (path req) "/video-info" then handle_video_info fetch (query req)
     else if String.eqb (path req) "/download" then handle_download (query req)
     else Ok (send_error_response "Invalid endpoint"));
  Ok {| status := 200; body := body |}.

End SimpleBackend.

(** ** The vocabulary of the properties *)

(** Every character of [s] satisfies [p]. *)
Fixpoint all_chars (p : ascii -> bool) (s : string) : bool :=
  match s with
  | EmptyString => true
  | String c s' => p c && all_chars p s'
  end.

(** [s] is empty or starts with a character satisfying [p]. *)
Definition ends_or_meets (p : ascii -> bool) (s : string) : bool :=
  match s with
  | EmptyString => true
  | String c _ => p c
  end.

(** [s] without its first [k] characters. *)
Fixpoint drop_chars (k : nat) (s : string) : string :=
  match k, s with
  | O, _ => s
  | S k', String _ s' => drop_chars k' s'
  | S _, EmptyString => EmptyString
  end.

Module IdSpec.

(** The three URL shapes of the first identifier pattern. *)
Definition shapes : list string :=
  ["youtube.com/watch?v="; "youtu.be/"; "youtube.com/embed/"].

(** [id], followed by [post] in the URL, is a captured identifier: it is not
    empty, holds none of [& ? #] and newline, and runs up to the next such
    character or to the end of the URL. *)
Definition captured (id post : string) : Prop :=
  id ≠ "" ∧ all_chars (fun c => negb (SimpleBackend.id_stop c)) id = true
  ∧ ends_or_meets SimpleBackend.id_stop post = true.

(** The URL holds one of the three shapes, directly followed by [id]. *)
Definition first_pattern (url id : string) : Prop :=
  ∃ pre literal post,
    literal ∈ shapes ∧ url = pre ++ literal ++ id ++ post ∧ captured id post.

(** The URL holds [youtube.com/watch?], then on the same line [v=],
    directly followed by [id]. *)
Definition second_pattern (url id : string) : Prop :=
  ∃ pre between post,
    url = pre ++ "youtube.com/watch?" ++ between ++ "v=" ++ id ++ post
    ∧ all_chars (fun c => negb (Ascii.eqb c newline)) between = true
    ∧ captured id post.

(** The split-based extractor: the URL holds [literal] directly followed
    by [id]; [id] is free of [stop] and runs up to the next [stop], the next
    [literal], or the end of the URL. *)
Definition cut_at (stop : ascii) (literal url id : string) : Prop :=
  ∃ pre post,
    url = pre ++ literal ++ id ++ post
    ∧ all_chars (fun c => negb (Ascii.eqb stop c)) id = true
    ∧ (post = "" ∨ startswith (String stop "") post = true
       ∨ startswith literal post = true).

End IdSpec.

Module Normalizer.

(** The video codec indicator of an audio-only record. *)
Definition audio_only (fmt : format) : Prop :=
  get (fmt_vcodec fmt) None = Some "none".

(** Each height is greater than every height after it. *)
Definition strictly_descending (heights : list Z) : Prop :=
  StronglySorted (fun a b => b < a) heights.

(** What a normalizer with the given cap and entry builder promises of its
    output [out] on the input [formats]. *)
Definition normalized (cap : nat) (entry : format → Z → format_entry)
    (formats : list format) (out : list format_entry) : Prop :=
  strictly_descending (map height out)
  ∧ NoDup (map height out)
  ∧ (∀ e, e ∈ out →
       ∃ fmt, fmt ∈ formats ∧ ¬ audio_only fmt ∧ e = entry fmt (height e))
  ∧ (length out ≤ cap)%nat.

(** An entry as a normalizer writes it: the quality label is the height
    followed by [p]. *)
Definition labelled (e : format_entry) : Prop :=
  quality e = str_int (height e) ++ "p".

(** A valid normalizer output for the given cap. *)
Definition valid_output (cap : nat) (out : list format_entry) : Prop :=
  strictly_descending (map height out)
  ∧ Forall (fun e => 0 < height e ∧ labelled e) out
  ∧ (length out ≤ cap)%nat.

(** The loop body both normalizers share, for either entry builder. *)
Definition step (entry : format → Z → format_entry)
    (st : list format_entry * gset Z) (fmt : format) : list format_entry * gset Z :=
  let '(kept, seen) := st in
  if bool_decide (get (fmt_vcodec fmt) None = Some "none") then st
  else
    match get (fmt_height fmt) (Some 0) with
    | Some h =>
        if bool_decide (h ≠ 0 ∧ h ∉ seen)
        then ((kept ++ [entry fmt h])%list, {[h]} ∪ seen)
        else st
    | None => st
    end.

(** What holds of [kept] and [seen] throughout the loop over [formats]. *)
Definition kept_ok (entry : format → Z → format_entry) (formats : list format)
    (st : list format_entry * gset Z) : Prop :=
  NoDup (map height st.1)
  ∧ ∀ e, e ∈ st.1 →
      height e ∈ st.2 ∧ height e ≠ 0
      ∧ ∃ fmt, fmt ∈ formats ∧ ¬ audio_only fmt ∧ e = entry fmt (height e).

End Normalizer.

Module QualitySpec.

(** The four tokens with a selector of their own. *)
Definition keywords : list string := ["audio"; "mp3"; "best"; "worst"].

(** The token holds a digit. *)
Definition contains_digit (token : string) : bool :=
  negb (all_chars (fun c => negb (isdigit c)) token).

(** The leading digit run of a token, as the specification words it: the
    digits from the first digit of the token up to the next character that
    is not a digit. *)
Definition leading_digit_run (token : string) : string :=
  fst (span (fun c => negb (isdigit c)) (snd (span isdigit token))).

(** The digits of the token stand together: they are [run], which is not
    empty, with no digit before it and none after it. *)
Definition one_digit_run (token run : string) : Prop :=
  ∃ pre post,
    token = pre ++ run ++ post ∧ run ≠ ""
    ∧ all_chars (fun c => negb (isdigit c)) pre = true
    ∧ all_chars isdigit run = true
    ∧ all_chars (fun c => negb (isdigit c)) post = true.

End QualitySpec.

Module TitleSpec.

(** The title with one trailing [suffix] taken off, as the specification
    words the clean-up of the page title. *)
Fixpoint strip_suffix (suffix s : string) : string :=
  if String.eqb s suffix then EmptyString
  else
    match s with
    | EmptyString => EmptyString
    | String c s' => String c (strip_suffix suffix s')
    end.

End TitleSpec.

(** Concrete surroundings for the handlers. *)
Module Examples.

(** A machine where yt-dlp is installed and exits with status 1. *)
Definition failing_system : Backend.system :=
  {| Backend.ensure_ytdlp_installed := Ok ();
     Backend.run := fun _ => Ok (Backend.Completed 1 "" "ERROR: Unsupported URL");
     Backend.loads := fun _ => Raise (Exn ValueError "Expecting value") |}.

(** An extraction library that raises on every URL. *)
Definition failing_extractor : App.extractor :=
  fun _ _ _ => Raise (Exn Exception "ERROR: Unsupported URL").

(** An extraction library that answers every URL with [i]. *)
Definition extractor_of (i : info) : App.extractor := fun _ _ _ => Ok i.

(** A network that serves [html] for every page. *)
Definition page (html : string) : SimpleBackend.fetcher := fun _ => Ok html.

(** A network that is down. *)
Definition offline : SimpleBackend.fetcher :=
  fun _ => Raise (Exn Exception "<urlopen error timed out>").

(** A request for [path?url=...&quality=...]. *)
Definition request_of (path url quality : string) : request :=
  {| path := path; query := {[ "url" := [url]; "quality" := [quality] ]} |}.

(** A request for [path?url=...]. *)
Definition url_request (path url : string) : request :=
  {| path := path; query := {[ "url" := [url] ]} |}.

(** A video format and an audio-only format of the given height. *)
Definition video (h : Z) (id : string) : format :=
  {| fmt_vcodec := Val "avc1"; fmt_height := Val h; fmt_format_id := Val id;
     fmt_ext := Val "mp4"; fmt_filesize := Null; fmt_url := Val ("https://cdn/" ++ id) |}.

Definition audio (id : string) : format :=
  {| fmt_vcodec := Val "none"; fmt_height := Null; fmt_format_id := Val id;
     fmt_ext := Val "m4a"; fmt_filesize := Val 1000; fmt_url := Absent |}.

(** An info dictionary with two formats and no top-level [url]. *)
Definition two_formats_info : info :=
  {| info_title := Val (JStr "Intro"); info_description := Absent;
     info_duration := Val (JInt 212); info_thumbnail := Absent;
     info_uploader := Absent; info_view_count := Absent;
     info_formats := Val [video 360 "18"; video 720 "22"]; info_url := Absent |}.

(** A machine where yt-dlp prints a direct URL and exits with status 0. *)
Definition working_system : Backend.system :=
  {| Backend.ensure_ytdlp_installed := Ok ();
     Backend.run := fun _ =>
       Ok (Backend.Completed 0 ("https://cdn/22" ++ String newline "https://cdn/140")
             "");
     Backend.loads := fun _ => Ok two_formats_info |}.

(** A machine on which the download of [8f14e45f.mp4] has ended. *)
Definition after_download : App.filesystem :=
  {| App.uuid4 := "8f14e45f-ceea-4672-9b1c-3d5c2d1e7a10";
     App.mkdtemp := Ok "/tmp/tmpk3x9";
     App.listdir := fun _ => Ok ["notes.txt"; "8f14e45f.mp4"];
     App.path_exists := fun _ => true;
     App.getsize := fun _ => Ok 1048576;
     App.format_title := fun _ => Raise (Exn TypeError "unhashable type: 'slice'") |}.

End Examples.

Module Selection.

(** The loop keeps a height for [fmt]: the record is not audio-only and its
    height [h] is there and not zero. *)
Definition qualifies (fmt : format) (h : Z) : Prop :=
  ¬ Normalizer.audio_only fmt ∧ get (fmt_height fmt) (Some 0) = Some h ∧ h ≠ 0.

(** [fmt] stands first among the records of [formats] that qualify with
    the height [h]. *)
Definition first_with (formats : list format) (fmt : format) (h : Z) : Prop :=
  ∃ before after,
    formats = (before ++ fmt :: after)%list ∧ qualifies fmt h
    ∧ ∀ f, f ∈ before → ¬ qualifies f h.

(** What holds of the kept entries and the seen heights once the loop has
    passed over [passed]. *)
Definition seen_ok (entry : format → Z → format_entry) (passed : list format)
    (st : list format_entry * gset Z) : Prop :=
  (∀ h, h ∈ st.2 ↔ ∃ fmt, fmt ∈ passed ∧ qualifies fmt h)
  ∧ (∀ h, h ∈ st.2 → ∃ e, e ∈ st.1 ∧ height e = h)
  ∧ (∀ e, e ∈ st.1 → ∃ fmt, first_with passed fmt (height e) ∧ e = entry fmt (height e)).

End Selection.

(** A query as [parse_qs] builds it: no key holds an empty list. *)
Definition parsed (query_params : gmap string (list string)) : Prop :=
  ∀ key values, query_params !! key = Some values → values ≠ [].

(** The URLs whose host is the bare [youtu.be]: the name, no slash behind
    it, and no [youtube.com]. *)
Definition bare_host (url : string) : Prop :=
  contains "youtube.com" url = false ∧ contains "youtu.be" url = true
  ∧ contains "youtu.be/" url = false.


(** The characters that would break a quoted header value or a path:
    double quote, slash, backslash, carriage return and line feed. *)
Definition breaks_header (c : ascii) : bool :=
  ((code c =? 34) || (code c =? 47) || (code c =? 92) || (code c =? 13)
   || (code c =? 10))%N.

(** The first and the last character of a string are white space. *)
Definition starts_blank (s : string) : bool :=
  match s with
  | EmptyString => false
  | String c _ => isspace c
  end.

Fixpoint ends_blank (s : string) : bool :=
  match s with
  | EmptyString => false
  | String c EmptyString => isspace c
  | String _ s' => ends_blank s'
  end.

(** What can go wrong inside the [try] of the two yt-dlp calls of
    backend.py, statement by statement, with the exception in flight when
    the [except] clauses are reached. *)
Module Failure.

(** The part both functions share, for the command [cmd]: the installation
    check raises, the run of yt-dlp raises, or yt-dlp exits with a status
    other than 0 and the function raises its own [Exception] around the
    standard error output. *)
Inductive yt_dlp (sys : Backend.system) (cmd : list string) : exn → Prop :=
  | install_check (e : exn) :
      Backend.ensure_ytdlp_installed sys = Raise e → yt_dlp sys cmd e
  | process (e : exn) :
      Backend.ensure_ytdlp_installed sys = Ok () →
      Backend.run sys cmd = Raise e → yt_dlp sys cmd e
  | exit_status (result : Backend.completed) :
      Backend.ensure_ytdlp_installed sys = Ok () →
      Backend.run sys cmd = Ok result → Backend.returncode result ≠ 0 →
      yt_dlp sys cmd (Exn Exception ("yt-dlp error: " ++ Backend.stderr result)).

(** [get_video_info] goes on after an exit with status 0: the first line of
    the output may not parse, and the [formats] of the parsed dictionary may
    not be iterable. *)
Inductive video_info (sys : Backend.system) (url : string) : exn → Prop :=
  | command (e : exn) :
      yt_dlp sys ["yt-dlp"; "--dump-json"; "--no-download"; url] e →
      video_info sys url e
  | parse (result : Backend.completed) (e : exn) :
      Backend.ensure_ytdlp_installed sys = Ok () →
      Backend.run sys ["yt-dlp"; "--dump-json"; "--no-download"; url] = Ok result →
      Backend.returncode result = 0 →
      Backend.loads sys (first (split (String newline "") (Backend.stdout result)))
      = Raise e →
      video_info sys url e
  | formats_value (result : Backend.completed) (i : info) (e : exn) :
      Backend.ensure_ytdlp_installed sys = Ok () →
      Backend.run sys ["yt-dlp"; "--dump-json"; "--no-download"; url] = Ok result →
      Backend.returncode result = 0 →
      Backend.loads sys (first (split (String newline "") (Backend.stdout result)))
      = Ok i →
      iterable (get (info_formats i) (Some [])) = Raise e →
      video_info sys url e.

End Failure.

(** The URL with every [&] written [%26] and every [=] written [%3D], each
    other character as it stands. *)
Fixpoint escaped (url : string) : string :=
  match url with
  | EmptyString => EmptyString
  | String c url' =>
      (if Ascii.eqb c "&" then "%26"
       else if Ascii.eqb c "=" then "%3D"
       else String c EmptyString) ++ escaped url'
  end.





(** ** Properties of the Python built-ins *)

(** Let [simpl] compute an append whose first argument starts with a
    constructor. *)
#[local] Arguments String.append !s1 s2 : simpl nomatch.

Section StringFacts.

Lemma append_empty_r (s : string) : s ++ "" = s.
Proof. induction s as [|c s IH]; simpl; congruence. Qed.

Lemma append_assoc (a b c : string) : (a ++ b) ++ c = a ++ b ++ c.
Proof. induction a as [|x a IH]; simpl; congruence. Qed.

Lemma strip_prefix_append (p s : string) : strip_prefix p (p ++ s) = Some s.
Proof.
  induction p as [|a p IH]; simpl; [done|].
  by rewrite Ascii.eqb_refl.
Qed.

Lemma strip_prefix_Some (p s rest : string) :
  strip_prefix p s = Some rest → s = p ++ rest.
Proof.
  revert s; induction p as [|a p IH]; intros s; simpl.
  - congruence.
  - destruct s as [|b s]; [done|].
    destruct (Ascii.eqb a b) eqn:E; [|done].
    apply Ascii.eqb_eq in E as ->. intros H. by rewrite (IH _ H).
Qed.

Lemma span_spec (stop : ascii → bool) (s run rest : string) :
  span stop s = (run, rest) →
  s = run ++ rest ∧ all_chars (fun c => negb (stop c)) run = true
  ∧ ends_or_meets stop rest = true.
Proof.
  revert run rest; induction s as [|c s IH]; intros run rest; simpl.
  - by intros [= <- <-].
  - destruct (stop c) eqn:E.
    + intros [= <- <-]. simpl. by rewrite E.
    + destruct (span stop s) as [run' rest'] eqn:Es.
      intros [= <- <-]. destruct (IH _ _ eq_refl) as (-> & Hrun & Hrest).
      simpl. by rewrite E.
Qed.

Lemma span_captured (stop : ascii → bool) (run rest : string) :
  all_chars (fun c => negb (stop c)) run = true →
  ends_or_meets stop rest = true →
  span stop (run ++ rest) = (run, rest).
Proof.
  intros Hrun Hrest. induction run as [|c run IH]; simpl in *.
  - destruct rest as [|c rest]; simpl in *; [done|by rewrite Hrest].
  - apply andb_true_iff in Hrun as [Hc Hrun].
    apply negb_true_iff in Hc. by rewrite Hc, (IH Hrun).
Qed.

Lemma search_Some (at_head : string → option string) (s group : string) :
  search at_head s = Some group →
  ∃ pre s', s = pre ++ s' ∧ at_head s' = Some group.
Proof.
  induction s as [|c s IH]; simpl.
  - destruct (at_head "") eqn:E; [|done]. intros [= <-]. by exists "", "".
  - destruct (at_head (String c s)) eqn:E.
    + intros [= <-]. by exists "", (String c s).
    + intros H. destruct (IH H) as (pre & s' & -> & Hs').
      by exists (String c pre), s'.
Qed.

Lemma search_append (at_head : string → option string) (pre s : string) :
  is_Some (at_head s) → is_Some (search at_head (pre ++ s)).
Proof.
  intros Hs. induction pre as [|c pre IH]; simpl.
  - destruct s; simpl; destruct (at_head _); done.
  - destruct (at_head (String c (pre ++ s))); [done|exact IH].
Qed.

Lemma all_chars_append (p : ascii → bool) (a b : string) :
  all_chars p (a ++ b) = all_chars p a && all_chars p b.
Proof.
  induction a as [|c a IH]; simpl; [done|]. by rewrite IH, andb_assoc.
Qed.

Lemma all_chars_ext (p q : ascii → bool) (s : string) :
  (∀ c, p c = q c) → all_chars p s = all_chars q s.
Proof. intros Hpq. induction s as [|c s IH]; simpl; [done|]. by rewrite Hpq, IH. Qed.

Lemma filter_chars_append (p : ascii → bool) (a b : string) :
  filter_chars p (a ++ b) = filter_chars p a ++ filter_chars p b.
Proof.
  induction a as [|c a IH]; simpl; [done|].
  destruct (p c); simpl; by rewrite IH.
Qed.

Lemma filter_chars_none (p : ascii → bool) (s : string) :
  all_chars (fun c => negb (p c)) s = true → filter_chars p s = "".
Proof.
  induction s as [|c s IH]; simpl; [done|].
  intros [Hc Hs]%andb_true_iff. apply negb_true_iff in Hc. rewrite Hc. auto.
Qed.

Lemma filter_chars_all (p : ascii → bool) (s : string) :
  all_chars p s = true → filter_chars p s = s.
Proof.
  induction s as [|c s IH]; simpl; [done|].
  intros [Hc Hs]%andb_true_iff. rewrite Hc. by rewrite IH.
Qed.

(** The filter leaves nothing exactly when no character passes it. *)
Lemma filter_chars_empty (p : ascii → bool) (s : string) :
  String.eqb (filter_chars p s) "" = all_chars (fun c => negb (p c)) s.
Proof.
  induction s as [|c s IH]; simpl; [done|]. by destruct (p c).
Qed.

Lemma split_from_nonempty (sep : string) (skip : nat) (s : string) :
  split_from sep skip s ≠ [].
Proof.
  revert skip. induction s as [|c s IH]; intros skip; simpl; [done|].
  destruct skip; [|apply IH].
  destruct (startswith sep (String c s)); [done|].
  by destruct (split_from sep 0 s).
Qed.

(** A separator that occurs cuts the string into at least two pieces. *)
Lemma split_contains (sep s : string) :
  sep ≠ "" → contains sep s = true → ∃ a b rest, split sep s = a :: b :: rest.
Proof.
  intros Hsep. unfold split. induction s as [|c s IH].
  - simpl. destruct sep; [done|]. by rewrite orb_false_r.
  - cbn [contains split_from].
    destruct (startswith sep (String c s)) eqn:E.
    + intros _.
      destruct (split_from sep (Nat.pred (String.length sep)) s) as [|b rest] eqn:Es.
      * by apply split_from_nonempty in Es.
      * by exists "", b, rest.
    + simpl. intros (a & b & rest & ->)%IH. by exists (String c a), b, rest.
Qed.

(** A separator that does not occur leaves the string in one piece. *)
Lemma split_not_contains (sep s : string) :
  contains sep s = false → split sep s = [s].
Proof.
  unfold split. induction s as [|c s IH]; [done|].
  cbn [contains split_from].
  intros [-> Hs]%orb_false_iff. by rewrite (IH Hs).
Qed.

Lemma startswith_true (p s : string) :
  startswith p s = true ↔ ∃ rest, s = p ++ rest.
Proof.
  unfold startswith. split.
  - destruct (strip_prefix p s) as [rest|] eqn:E; [|done].
    intros _. exists rest. by apply strip_prefix_Some.
  - intros [rest ->]. by rewrite strip_prefix_append.
Qed.

Lemma length_append (a b : string) :
  String.length (a ++ b) = (String.length a + String.length b)%nat.
Proof. induction a as [|c a IH]; simpl; [done|]. by rewrite IH. Qed.

Lemma drop_chars_append (p s : string) : drop_chars (String.length p) (p ++ s) = s.
Proof. induction p as [|c p IH]; simpl; [by destruct s|done]. Qed.

Lemma join_cons (sep piece : string) (pieces : list string) :
  pieces ≠ [] → join sep (piece :: pieces) = piece ++ sep ++ join sep pieces.
Proof. by destruct pieces. Qed.

(** Joining the pieces of a split with the separator gives the string
    back; with characters of an occurrence still to pass, what follows
    them. *)
Lemma join_split_from (sep : string) (skip : nat) (s : string) :
  sep ≠ "" → (skip ≤ String.length s)%nat →
  join sep (split_from sep skip s) = drop_chars skip s.
Proof.
  intros Hsep. revert skip. induction s as [|c s IH]; intros skip Hskip.
  - by destruct skip.
  - destruct skip as [|k]; cbn [split_from drop_chars].
    + destruct (startswith sep (String c s)) eqn:E.
      * apply startswith_true in E as [rest E].
        rewrite join_cons by apply split_from_nonempty.
        destruct sep as [|c' sep]; [done|]. simpl in E.
        injection E as <- ->. cbn [String.length Nat.pred].
        rewrite IH by (rewrite length_append; lia).
        by rewrite drop_chars_append.
      * specialize (IH 0%nat ltac:(lia)). cbn [drop_chars] in IH.
        destruct (split_from sep 0 s) as [|piece rest] eqn:Es.
        { by apply split_from_nonempty in Es. }
        rewrite <- IH. by destruct rest.
    + apply IH. simpl in Hskip. lia.
Qed.

Lemma join_split (sep s : string) : sep ≠ "" → join sep (split sep s) = s.
Proof. intros Hsep. apply (join_split_from sep 0 s Hsep). lia. Qed.

(** The second piece of a split stands behind the first separator and runs
    up to the next one or to the end. *)
Lemma split_second (sep s a b : string) (rest : list string) :
  sep ≠ "" → split sep s = a :: b :: rest →
  ∃ post, s = a ++ sep ++ b ++ post ∧ (post = "" ∨ startswith sep post = true).
Proof.
  intros Hsep Hs. pose proof (join_split sep s Hsep) as Hj. rewrite Hs in Hj.
  rewrite <- Hj. destruct rest as [|c rest]; simpl.
  - exists "". split; [by rewrite append_empty_r|by left].
  - exists (sep ++ join sep (c :: rest)). split; [done|].
    right. apply startswith_true. by eexists.
Qed.

(** The first piece of a split at one character is the run up to that
    character. *)
Lemma first_split_char (stop : ascii) (s : string) :
  first (split (String stop "") s) = fst (span (Ascii.eqb stop) s).
Proof.
  unfold split. induction s as [|c s IH]; [done|].
  cbn [split_from span]. unfold startswith. simpl.
  destruct (Ascii.eqb stop c); [done|].
  destruct (split_from (String stop "") 0 s) as [|piece rest] eqn:Es.
  { by apply split_from_nonempty in Es. }
  simpl in IH. destruct (span (Ascii.eqb stop) s). simpl in *. by rewrite IH.
Qed.

Lemma orelse_Some {A : Type} (a b : option A) (x : A) :
  orelse a b = Some x → a = Some x ∨ (a = None ∧ b = Some x).
Proof. destruct a; simpl; auto. Qed.

Lemma orelse_is_Some {A : Type} (a b : option A) :
  is_Some a ∨ is_Some b → is_Some (orelse a b).
Proof. destruct a; simpl; [eauto|]. intros [[? H]|?]; [discriminate|done]. Qed.

Lemma orelse_None {A : Type} (a b : option A) :
  orelse a b = None ↔ a = None ∧ b = None.
Proof. destruct a; simpl; intuition congruence. Qed.

End StringFacts.

(** ** simple_backend.py: the identifier patterns *)

Section IdentifierFacts.

Import SimpleBackend IdSpec.

Lemma id_group_Some (s id : string) :
  id_group s = Some id → ∃ post, s = id ++ post ∧ captured id post.
Proof.
  unfold id_group. destruct (span id_stop s) as [run rest] eqn:E.
  destruct (String.eqb run "") eqn:Erun; [done|]. intros [= ->].
  apply span_spec in E as (-> & Hrun & Hrest).
  exists rest. repeat split; [|done..].
  intros ->. by rewrite String.eqb_refl in Erun.
Qed.

Lemma id_group_captured (id post : string) :
  captured id post → id_group (id ++ post) = Some id.
Proof.
  intros (Hne & Hrun & Hrest). unfold id_group.
  rewrite (span_captured _ _ _ Hrun Hrest).
  destruct (String.eqb_spec id ""); done.
Qed.

Lemma shape_Some (literal s id : string) :
  shape literal s = Some id →
  ∃ post, s = literal ++ id ++ post ∧ captured id post.
Proof.
  unfold shape. destruct (strip_prefix literal s) as [rest|] eqn:E; [|done].
  intros (post & -> & Hc)%id_group_Some.
  apply strip_prefix_Some in E as ->. by exists post.
Qed.

Lemma shape_captured (literal id post : string) :
  captured id post → shape literal (literal ++ id ++ post) = Some id.
Proof.
  intros Hc. unfold shape. rewrite strip_prefix_append.
  by apply id_group_captured.
Qed.

Lemma pattern1_Some (s id : string) :
  pattern1 s = Some id →
  ∃ literal post, literal ∈ shapes ∧ s = literal ++ id ++ post ∧ captured id post.
Proof.
  unfold pattern1, shapes.
  intros [H|[_ [H|[_ H]]%orelse_Some]]%orelse_Some;
    apply shape_Some in H as (post & -> & Hc);
    eexists _, post; (split; [|done]); set_solver.
Qed.

Lemma pattern1_captured (literal id post : string) :
  literal ∈ shapes → captured id post →
  is_Some (pattern1 (literal ++ id ++ post)).
Proof.
  intros Hin Hc. unfold pattern1.
  pose proof (shape_captured literal id post Hc) as Hs.
  unfold shapes in Hin.
  apply elem_of_cons in Hin as [->|Hin]; [rewrite Hs; by eexists|].
  apply orelse_is_Some; right.
  apply elem_of_cons in Hin as [->|Hin]; [rewrite Hs; by eexists|].
  apply orelse_is_Some; right.
  apply list_elem_of_singleton in Hin as ->. rewrite Hs; by eexists.
Qed.

Lemma dots_then_v_Some (s id : string) :
  dots_then_v s = Some id →
  ∃ between post,
    s = between ++ "v=" ++ id ++ post
    ∧ all_chars (fun c => negb (Ascii.eqb c newline)) between = true
    ∧ captured id post.
Proof.
  induction s as [|c s IH]; simpl.
  - intros (post & -> & Hc)%shape_Some. by exists "", post.
  - destruct (Ascii.eqb c newline) eqn:Ec.
    + intros (post & -> & Hc)%shape_Some. by exists "", post.
    + intros [H|[_ H]]%orelse_Some.
      * destruct (IH H) as (between & post & -> & Hb & Hc).
        exists (String c between), post. simpl. by rewrite Ec.
      * apply shape_Some in H as (post & -> & Hc). by exists "", post.
Qed.

Lemma dots_then_v_here (s : string) :
  is_Some (shape "v=" s) → is_Some (dots_then_v s).
Proof.
  intros Hs. destruct s as [|c s]; simpl; [done|].
  destruct (Ascii.eqb c newline); [done|]. apply orelse_is_Some; by right.
Qed.

Lemma dots_then_v_captured (between id post : string) :
  all_chars (fun c => negb (Ascii.eqb c newline)) between = true →
  captured id post →
  is_Some (dots_then_v (between ++ "v=" ++ id ++ post)).
Proof.
  intros Hb Hc. induction between as [|c between IH].
  - apply dots_then_v_here. change (is_Some (shape "v=" ("v=" ++ id ++ post))).
    rewrite (shape_captured "v=" id post Hc). by eexists.
  - simpl in *. apply andb_true_iff in Hb as [Hnl Hb]. apply negb_true_iff in Hnl.
    rewrite Hnl. apply orelse_is_Some; left. by apply IH.
Qed.

Lemma pattern2_Some (s id : string) :
  pattern2 s = Some id →
  ∃ between post,
    s = "youtube.com/watch?" ++ between ++ "v=" ++ id ++ post
    ∧ all_chars (fun c => negb (Ascii.eqb c newline)) between = true
    ∧ captured id post.
Proof.
  unfold pattern2.
  destruct (strip_prefix "youtube.com/watch?" s) as [rest|] eqn:E; [|done].
  intros (between & post & -> & Hb & Hc)%dots_then_v_Some.
  apply strip_prefix_Some in E as ->. by exists between, post.
Qed.

Lemma search_pattern1_Some (url id : string) :
  search pattern1 url = Some id → first_pattern url id.
Proof.
  intros (pre & s & -> & (literal & post & Hin & -> & Hc)%pattern1_Some)%search_Some.
  by exists pre, literal, post.
Qed.

Lemma search_pattern2_Some (url id : string) :
  search pattern2 url = Some id → second_pattern url id.
Proof.
  intros (pre & s & -> & (between & post & -> & Hb & Hc)%pattern2_Some)%search_Some.
  by exists pre, between, post.
Qed.

Lemma first_pattern_found (url id : string) :
  first_pattern url id → is_Some (search pattern1 url).
Proof.
  intros (pre & literal & post & Hin & -> & Hc).
  apply search_append. by apply pattern1_captured.
Qed.

Lemma second_pattern_found (url id : string) :
  second_pattern url id → is_Some (search pattern2 url).
Proof.
  intros (pre & between & post & -> & Hb & Hc).
  apply search_append. unfold pattern2. rewrite strip_prefix_append.
  by apply dots_then_v_captured.
Qed.

(** An extracted identifier is never the empty string. *)
Lemma extract_youtube_id_nonempty (url id : string) :
  extract_youtube_id url = Some id → id ≠ "".
Proof.
  unfold extract_youtube_id.
  intros [H|[_ H]]%orelse_Some.
  - apply search_pattern1_Some in H as (? & ? & ? & _ & _ & Hne & _). done.
  - apply search_pattern2_Some in H as (? & ? & ? & _ & _ & Hne & _). done.
Qed.

End IdentifierFacts.

(** ** list.sort *)

Section SortFacts.

Context {A : Type} (key : A → Z).

Lemma insert_reverse_perm (x : A) (l : list A) :
  insert_reverse key x l ≡ₚ x :: l.
Proof.
  induction l as [|y l IH]; simpl; [done|].
  destruct (key x <? key y); [|done].
  rewrite IH. apply Permutation_swap.
Qed.

Lemma sort_reverse_perm (l : list A) : sort_reverse key l ≡ₚ l.
Proof.
  induction l as [|x l IH]; simpl; [done|].
  unfold sort_reverse in *. simpl. by rewrite insert_reverse_perm, IH.
Qed.

Lemma insert_reverse_sorted (x : A) (l : list A) :
  StronglySorted (fun a b => key b ≤ key a) l →
  StronglySorted (fun a b => key b ≤ key a) (insert_reverse key x l).
Proof.
  induction 1 as [|y l Hl IH Hy]; simpl.
  - repeat constructor.
  - destruct (Z.ltb_spec (key x) (key y)).
    + constructor; [done|].
      rewrite insert_reverse_perm. constructor; [lia|done].
    + constructor; [by constructor|].
      constructor; [lia|]. eapply Forall_impl; [exact Hy|]. simpl. lia.
Qed.

Lemma sort_reverse_sorted (l : list A) :
  StronglySorted (fun a b => key b ≤ key a) (sort_reverse key l).
Proof.
  induction l as [|x l IH]; [constructor|].
  by apply insert_reverse_sorted.
Qed.

(** A list already in strictly descending key order is left as it is. *)
Lemma sort_reverse_descending (l : list A) :
  StronglySorted (fun a b => b < a) (map key l) → sort_reverse key l = l.
Proof.
  induction l as [|x l IH]; [done|]. simpl.
  intros [Hx Hl]%StronglySorted_cons.
  unfold sort_reverse in *. simpl. rewrite (IH Hl).
  destruct l as [|y l]; simpl; [done|].
  apply Forall_cons in Hx as [Hxy _].
  destruct (Z.ltb_spec (key x) (key y)); [lia|done].
Qed.

Lemma descending_strict (l : list A) :
  StronglySorted (fun a b => key b ≤ key a) l →
  NoDup (map key l) →
  StronglySorted (fun a b => b < a) (map key l).
Proof.
  induction 1 as [|x l Hl IH Hx]; simpl; [constructor|].
  intros [Hnotin Hnd]%NoDup_cons. constructor; [by apply IH|].
  apply Forall_fmap, Forall_forall. intros y Hy. simpl.
  rewrite Forall_forall in Hx. specialize (Hx y Hy).
  assert (key y ≠ key x); [|lia].
  intros Heq. apply Hnotin. rewrite <- Heq. by apply list_elem_of_fmap_2.
Qed.

End SortFacts.

Lemma descending_strict_NoDup (heights : list Z) :
  StronglySorted (fun a b => b < a) heights → NoDup heights.
Proof.
  induction 1 as [|x l Hl IH Hx]; constructor; [|done].
  intros Hin. rewrite Forall_forall in Hx. specialize (Hx x Hin). lia.
Qed.

(** ** The format normalizers *)

Section NormalizerFacts.

Import Normalizer.

Context (entry : format → Z → format_entry).
Context (entry_height : ∀ fmt h, height (entry fmt h) = h).

Lemma step_kept_ok (formats : list format) (st : list format_entry * gset Z)
    (fmt : format) :
  fmt ∈ formats → kept_ok entry formats st → kept_ok entry formats (step entry st fmt).
Proof.
  intros Hin [Hnd Hkept]. destruct st as [kept seen]. unfold step. simpl in *.
  case_bool_decide as Hv; [done|].
  destruct (get (fmt_height fmt) (Some 0)) as [h|]; [|done].
  case_bool_decide as Hh; [|done]. destruct Hh as [Hh0 Hseen].
  split; simpl.
  - rewrite map_app. simpl. apply NoDup_app. split_and!; [done| |apply NoDup_singleton].
    intros x Hx Hx'. apply list_elem_of_singleton in Hx'.
    rewrite entry_height in Hx'. subst x.
    apply list_elem_of_fmap in Hx as (e & Heq & He).
    destruct (Hkept e He) as [Hs _]. by rewrite <- Heq in Hs.
  - intros e [He| ->%list_elem_of_singleton]%elem_of_app.
    + destruct (Hkept e He) as (? & ? & ?).
      split_and!; [apply elem_of_union; by right|done..].
    + rewrite entry_height. split_and!; [|done|by exists fmt].
      apply elem_of_union; left. by apply elem_of_singleton.
Qed.

Lemma loop_kept_ok (formats0 formats : list format) (st : list format_entry * gset Z) :
  (∀ fmt, fmt ∈ formats → fmt ∈ formats0) →
  kept_ok entry formats0 st →
  kept_ok entry formats0 (fold_left (step entry) formats st).
Proof.
  revert st. induction formats as [|fmt formats IH]; intros st Hsub Hst; [done|].
  simpl. apply IH; [set_solver|]. apply step_kept_ok; [set_solver|done].
Qed.

Lemma loop_audio_only (formats : list format) (st : list format_entry * gset Z) :
  Forall audio_only formats → fold_left (step entry) formats st = st.
Proof.
  induction 1 as [|fmt formats Hfmt _ IH]; [done|]. simpl.
  replace (step entry st fmt) with st; [done|].
  destruct st as [kept seen]. unfold step. by rewrite bool_decide_true.
Qed.

(** The output of the loop, the sort and the cut satisfies the contract. *)
Lemma normalize_normalized (cap : nat) (formats : list format) :
  normalized cap entry formats
    (take cap (sort_reverse height (fold_left (step entry) formats ([], ∅)).1)).
Proof.
  destruct (loop_kept_ok formats formats ([], ∅)) as [Hnd Hkept].
  { done. }
  { split; [constructor|]. intros e He. by apply elem_of_nil in He. }
  set (kept := (fold_left (step entry) formats ([], ∅)).1) in *.
  assert (Hstrict : strictly_descending (map height (sort_reverse height kept))).
  { apply descending_strict; [apply sort_reverse_sorted|].
    by rewrite sort_reverse_perm. }
  unfold normalized. split_and!.
  - rewrite <- firstn_map. unfold strictly_descending in *.
    rewrite <- (take_drop cap (map height _)) in Hstrict.
    by apply StronglySorted_app_1_l in Hstrict.
  - rewrite <- firstn_map. eapply sublist_NoDup; [|apply sublist_take].
    by rewrite sort_reverse_perm.
  - intros e He%subseteq_take. rewrite sort_reverse_perm in He.
    by destruct (Hkept e He) as (_ & _ & ?).
  - rewrite length_take. lia.
Qed.

Lemma normalize_audio_only (cap : nat) (formats : list format) :
  Forall audio_only formats →
  take cap (sort_reverse height (fold_left (step entry) formats ([], ∅)).1) = [].
Proof. intros H. rewrite (loop_audio_only _ _ H). by destruct cap. Qed.

(** Reading an entry back and building it again gives the entry. *)
Context (entry_as_format : ∀ e, labelled e → entry (as_format e) (height e) = e).

Lemma loop_entries (out kept : list format_entry) (seen : gset Z) :
  NoDup (map height out) →
  Forall (fun e => height e ≠ 0 ∧ labelled e ∧ height e ∉ seen) out →
  (fold_left (step entry) (map as_format out) (kept, seen)).1 = (kept ++ out)%list.
Proof.
  revert kept seen. induction out as [|e out IH]; intros kept seen Hnd Hout; simpl.
  - by rewrite app_nil_r.
  - cbn [map] in Hnd. apply NoDup_cons in Hnd as [Hnotin Hnd].
    apply Forall_cons in Hout as [(Hh0 & Hlab & Hseen) Hout].
    rewrite bool_decide_true by done.
    rewrite (entry_as_format e Hlab), IH, <- app_assoc; [done..|].
    rewrite Forall_forall in Hout |- *. intros e' He'.
    destruct (Hout e' He') as (? & ? & ?). split_and!; [done..|].
    intros [Heq%elem_of_singleton|?]%elem_of_union; [|done].
    apply Hnotin. rewrite <- Heq. by apply list_elem_of_fmap_2.
Qed.

(** The normalizer leaves a list in strictly descending, non-zero, labelled
    form and within the cap as it is. *)
Lemma normalize_fixed (cap : nat) (out : list format_entry) :
  strictly_descending (map height out) →
  Forall (fun e => height e ≠ 0 ∧ labelled e) out →
  (length out ≤ cap)%nat →
  take cap (sort_reverse height
    (fold_left (step entry) (map as_format out) ([], ∅)).1) = out.
Proof.
  intros Hdesc Hout Hlen.
  rewrite loop_entries; simpl.
  - by rewrite sort_reverse_descending, take_ge.
  - apply (descending_strict_NoDup _ Hdesc).
  - eapply Forall_impl; [exact Hout|]. simpl.
    intros e [? ?]. split_and!; [done..|]. apply not_elem_of_empty.
Qed.

(** Every entry builder labels its entries. *)
Context (entry_labelled : ∀ fmt h, labelled (entry fmt h)).

Lemma normalize_entries (cap : nat) (formats : list format) :
  Forall (fun e => height e ≠ 0 ∧ labelled e)
    (take cap (sort_reverse height (fold_left (step entry) formats ([], ∅)).1)).
Proof.
  destruct (loop_kept_ok formats formats ([], ∅)) as [_ Hkept].
  { done. }
  { split; [constructor|]. intros e He. by apply elem_of_nil in He. }
  apply Forall_forall. intros e He%subseteq_take.
  rewrite sort_reverse_perm in He.
  destruct (Hkept e He) as (_ & Hnz & fmt & _ & _ & Heq).
  split; [done|]. rewrite Heq. apply entry_labelled.
Qed.

(** Normalizing an output of the normalizer again changes nothing. *)
Lemma normalize_twice (cap : nat) (formats : list format) :
  take cap (sort_reverse height
    (fold_left (step entry)
       (map as_format
          (take cap (sort_reverse height (fold_left (step entry) formats ([], ∅)).1)))
       ([], ∅)).1)
  = take cap (sort_reverse height (fold_left (step entry) formats ([], ∅)).1).
Proof.
  destruct (normalize_normalized cap formats) as (Hdesc & _ & _ & Hlen).
  apply normalize_fixed; [done|apply normalize_entries|done].
Qed.

End NormalizerFacts.

Section BothNormalizers.

Import Normalizer.

Lemma extract_formats_unfold (formats : list format) :
  Backend.extract_formats formats =
  take 5 (sort_reverse height (fold_left (step Backend.entry) formats ([], ∅)).1).
Proof.
  unfold Backend.extract_formats.
  change Backend.extract_formats_step with (step Backend.entry).
  by destruct (fold_left _ _ _).
Qed.

Lemma collect_formats_unfold (raw : list format) :
  App.collect_formats raw =
  sort_reverse height (fold_left (step App.entry) raw ([], ∅)).1.
Proof.
  unfold App.collect_formats.
  change App.collect_step with (step App.entry).
  by destruct (fold_left _ _ _).
Qed.

Lemma get_field_of {A : Type} (o default : option A) : get (field_of o) default = o.
Proof. by destruct o. Qed.

Lemma backend_entry_as_format (e : format_entry) :
  labelled e → Backend.entry (as_format e) (height e) = e.
Proof.
  unfold labelled, Backend.entry. destruct e as [fid q h x sz]; simpl.
  intros ->. by rewrite !get_field_of.
Qed.

Lemma app_entry_as_format (e : format_entry) :
  labelled e → App.entry (as_format e) (height e) = e.
Proof.
  unfold labelled, App.entry. destruct e as [fid q h x sz]; simpl.
  intros ->. by rewrite !get_field_of.
Qed.

Lemma valid_output_nonzero (cap : nat) (out : list format_entry) :
  valid_output cap out → Forall (fun e => height e ≠ 0 ∧ labelled e) out.
Proof.
  intros (_ & Hout & _). eapply Forall_impl; [exact Hout|].
  simpl. intros e [? ?]. split; [lia|done].
Qed.

(** The formats of a successful [/info] answer are the first ten collected
    entries. *)
Lemma get_video_info_formats (extract_info : App.extractor) (url : string)
    (i : info) (raw : list format) :
  extract_info [("quiet", JBool true); ("no_warnings", JBool true);
                ("extract_flat", JBool false)] url false = Ok i →
  info_formats i = Val raw →
  status (App.get_video_info extract_info url) = 200
  ∧ member "formats" (body (App.get_video_info extract_info url))
    = Some (JList (map App.entry_json (take 10 (App.collect_formats raw)))).
Proof.
  intros Hinfo Hraw. unfold App.get_video_info, App.info_entries.
  rewrite Hinfo. simpl. by rewrite Hraw.
Qed.

End BothNormalizers.

(** ** The claims *)

(** Settles a decidable proposition on closed terms by evaluation. *)
Ltac by_decision :=
  lazymatch goal with
  | |- ?P => refine (@bool_decide_unpack P _ _); vm_compute; exact I
  end.

Section Claims.

Import Normalizer.

(** C1.  For every input sequence of format records, the output of either
    format normalizer is strictly descending by height, holds no height
    twice, holds only entries built from records that are not audio-only
    (video codec indicator ['none']), and is at most as long as the cap: 5
    in the subprocess variant ([Backend.extract_formats]), 10 in the full
    server (the first ten of [App.collect_formats], as [/info] returns
    them).  The empty input and an input of audio-only records give the
    empty output. *)
Theorem normalizer_output_shape (formats : list format) :
  normalized 5 Backend.entry formats (Backend.extract_formats formats)
  ∧ normalized 10 App.entry formats (take 10 (App.collect_formats formats))
  ∧ Backend.extract_formats [] = []
  ∧ take 10 (App.collect_formats []) = []
  ∧ (Forall audio_only formats →
       Backend.extract_formats formats = []
       ∧ take 10 (App.collect_formats formats) = []).
Proof.
  rewrite extract_formats_unfold, collect_formats_unfold.
  split_and!; [by apply normalize_normalized..|done|done|].
  intros Haudio. split; by apply normalize_audio_only.
Qed.

Lemma normalizer_output_shape_witness :
  Backend.extract_formats [Examples.audio "140"; Examples.audio "251"] = []
  ∧ take 10 (App.collect_formats [Examples.audio "140"; Examples.audio "251"]) = [].
Proof.
  apply (normalizer_output_shape [Examples.audio "140"; Examples.audio "251"]).
  by repeat constructor.
Defined.

(** The digits of a token that holds one run of digits are that run, which
    is also its leading digit run. *)
Lemma digits_of_single_run (pre run post : string) :
  all_chars (fun c => negb (isdigit c)) pre = true →
  all_chars isdigit run = true →
  all_chars (fun c => negb (isdigit c)) post = true →
  filter_chars isdigit (pre ++ run ++ post) = run
  ∧ QualitySpec.leading_digit_run (pre ++ run ++ post) = run.
Proof.
  intros Hpre Hrun Hpost. split.
  - rewrite !filter_chars_append, (filter_chars_none _ _ Hpre),
      (filter_chars_none _ _ Hpost), (filter_chars_all _ _ Hrun).
    simpl. apply append_empty_r.
  - unfold QualitySpec.leading_digit_run.
    assert (Hnn : all_chars (fun c => negb ((fun c => negb (isdigit c)) c)) run = true).
    { rewrite <- Hrun. apply all_chars_ext. intros c. apply negb_involutive. }
    destruct run as [|d run].
    + simpl. rewrite <- (append_empty_r (pre ++ post)).
      rewrite (span_captured isdigit (pre ++ post) ""); [done| |done].
      by rewrite all_chars_append, Hpre, Hpost.
    + rewrite (span_captured isdigit pre (String d run ++ post) Hpre).
      * cbn [snd]. rewrite (span_captured _ (String d run) post Hnn); [done|].
        destruct post as [|c post]; simpl in *; [done|].
        by apply andb_true_iff in Hpost as [-> _].
      * simpl in *. by apply andb_true_iff in Hrun as [-> _].
Qed.

Lemma keywords_apart (quality : string) :
  quality ∈ ["audio"; "mp3"] → quality ∈ ["best"; "worst"] → False.
Proof.
  intros [->|[->|[]%elem_of_nil]%elem_of_cons]%elem_of_cons H;
    apply elem_of_cons in H as [?|H]; try done;
    apply elem_of_cons in H as [?|H]; try done;
    by apply elem_of_nil in H.
Qed.

(** C2, as amended.  The quality selector of the full server
    ([/download] and [/stream] of app.py) is total and maps ['audio'] and
    ['mp3'] to ['bestaudio/best'] with extension mp3, ['best'] and ['worst']
    to themselves with extension mp4, any other token whose digits stand
    together in one run to ['best[height<=N]'] with extension mp4, where N
    is that run, the leading digit run of the token, and any other token
    without a digit to ['best'] with extension mp4.  The selector of the
    subprocess variant (backend.py) passes ['best'] and ['worst'] on and
    wraps every other token as it stands.  Tokens whose digits stand in
    several runs are left aside. *)
Theorem quality_selector_cases (quality : string) :
  (quality ∈ ["audio"; "mp3"] →
     App.download_video_quality quality = ("bestaudio/best", "mp3"))
  ∧ (quality ∈ ["best"; "worst"] →
     App.download_video_quality quality = (quality, "mp4"))
  ∧ (∀ run, quality ∉ QualitySpec.keywords → QualitySpec.one_digit_run quality run →
       QualitySpec.leading_digit_run quality = run
       ∧ App.download_video_quality quality = ("best[height<=" ++ run ++ "]", "mp4"))
  ∧ (quality ∉ QualitySpec.keywords → QualitySpec.contains_digit quality = false →
     App.download_video_quality quality = ("best", "mp4"))
  ∧ App.stream_format_selector quality = fst (App.download_video_quality quality)
  ∧ (quality ∈ ["best"; "worst"] → Backend.format_selector quality = quality)
  ∧ (quality ∉ ["best"; "worst"] →
     Backend.format_selector quality = "best[height<=" ++ quality ++ "]").
Proof.
  unfold App.download_video_quality, App.stream_format_selector,
    Backend.format_selector, QualitySpec.contains_digit, QualitySpec.keywords.
  split_and!.
  - intros H. by rewrite bool_decide_true.
  - intros H. case_bool_decide as Ha; [|by rewrite bool_decide_true].
    destruct (keywords_apart quality Ha H).
  - intros run Hk (pre & post & -> & Hne & Hpre & Hrun & Hpost).
    destruct (digits_of_single_run pre run post Hpre Hrun Hpost) as [Hdigits Hlead].
    split; [done|]. rewrite Hdigits.
    rewrite !bool_decide_false.
    + by destruct (String.eqb_spec run "").
    + intros Hin. apply Hk. by do 2 apply list_elem_of_further.
    + intros Hin. apply Hk. apply elem_of_app with (l1 := ["audio"; "mp3"]). by left.
  - intros Hk Hd. rewrite filter_chars_empty.
    apply negb_false_iff in Hd. rewrite Hd. simpl.
    rewrite !bool_decide_false; [done|..]; intros Hin; apply Hk.
    + by do 2 apply list_elem_of_further.
    + apply elem_of_app with (l1 := ["audio"; "mp3"]). by left.
  - repeat case_bool_decide; try done.
    by destruct (negb _).
  - intros H. by rewrite bool_decide_true.
  - intros H. by rewrite bool_decide_false.
Qed.

Lemma quality_selector_cases_witness :
  (QualitySpec.leading_digit_run "720p" = "720"
   ∧ App.download_video_quality "720p" = ("best[height<=720]", "mp4"))
  ∧ App.download_video_quality "audio" = ("bestaudio/best", "mp3")
  ∧ App.download_video_quality "fast" = ("best", "mp4")
  ∧ Backend.format_selector "720" = "best[height<=720]".
Proof.
  split; [|split_and!].
  - apply (quality_selector_cases "720p"); [by_decision|].
    exists "", "p". by split_and!.
  - apply (quality_selector_cases "audio"). by_decision.
  - apply (quality_selector_cases "fast"); [by_decision|reflexivity].
  - apply (quality_selector_cases "720"). by_decision.
Defined.

(** C2 as stated fails on the subprocess variant: its selector extracts no
    digit run, has no audio case and no fall-back to ['best'].  The token
    720p is wrapped as it stands, and so are audio and a token without a
    digit. *)
Lemma subprocess_selector_wraps_token :
  QualitySpec.leading_digit_run "720p" = "720"
  ∧ Backend.format_selector "720p" = "best[height<=720p]"
  ∧ Backend.format_selector "720p"
    ≠ "best[height<=" ++ QualitySpec.leading_digit_run "720p" ++ "]"
  ∧ Backend.format_selector "audio" = "best[height<=audio]"
  ∧ QualitySpec.contains_digit "fast" = false
  ∧ Backend.format_selector "fast" = "best[height<=fast]".
Proof. split_and!; by vm_compute. Qed.

(** The tokens C2 as amended leaves aside.  Line 115 of app.py announces
    the number of the token (720p gives 720), and line 116 joins every digit
    of it: on 720p60 the selector bounds the height by 72060, which is no
    number of the token. *)
Lemma quality_selector_not_leading_run :
("720p60" ∉ QualitySpec.keywords)
  ∧ QualitySpec.contains_digit "720p60" = true
  ∧ QualitySpec.leading_digit_run "720p60" = "720"
  ∧ App.download_video_quality "720p60" = ("best[height<=72060]", "mp4")
  ∧ App.download_video_quality "720p60"
    ≠ ("best[height<=" ++ QualitySpec.leading_digit_run "720p60" ++ "]", "mp4").
Proof. split_and!; [by_decision|by vm_compute..]. Qed.

(** One branch of the split-based extractor: the piece behind the first
    [literal], cut at the first [stop]. *)
Lemma split_cut (stop : ascii) (literal url : string) :
  literal ≠ "" → contains literal url = true →
  ∃ id, (piece ← index (split literal url) 1; Ok (first (split (String stop "") piece)))
        = Ok id
        ∧ IdSpec.cut_at stop literal url id.
Proof.
  intros Hlit Hin.
  destruct (split_contains literal url Hlit Hin) as (a & b & rest & Hs).
  destruct (split_second literal url a b rest Hlit Hs) as (post & -> & Hpost).
  rewrite Hs. simpl. rewrite first_split_char.
  destruct (span (Ascii.eqb stop) b) as [id after] eqn:Eb.
  apply span_spec in Eb as (-> & Hid & Hafter).
  exists id. split; [done|]. exists a, (after ++ post).
  split_and!; [by rewrite append_assoc|done|].
  destruct after as [|c after]; simpl in *.
  - destruct Hpost; auto.
  - right; left. unfold startswith. simpl. by rewrite Hafter.
Qed.

(** C3, as amended.  For every URL, the regular-expression extractor
    [extract_youtube_id] of simple_backend.py returns without raising.
    Where the URL holds one of the shapes [watch?v=], [youtu.be/] and
    [/embed/] of the first pattern followed by an identifier, the result is
    an identifier captured by the first pattern; where only the second
    pattern matches, the result is captured by the second; a captured
    identifier is not empty and ends at the next [&], [?], [#] or newline of
    the URL, or where the URL ends.  Where no pattern matches the result is
    [None].  The split-based [extract_video_id] of backend.py cuts the
    identifier behind [v=] at the next [&] only, and the identifier behind
    [/embed/] or [youtu.be/] at the next [?] only, and returns the empty
    string for a URL that holds neither host name.  On the three sample URLs
    the results are ABC123, XYZ789 and [None], respectively the empty
    string. *)
Theorem extract_youtube_id_spec (url : string) :
  ((∃ id', IdSpec.first_pattern url id') →
     ∃ id, SimpleBackend.extract_youtube_id url = Some id ∧ IdSpec.first_pattern url id)
  ∧ ((¬ ∃ id', IdSpec.first_pattern url id') →
     ∀ id, SimpleBackend.extract_youtube_id url = Some id → IdSpec.second_pattern url id)
  ∧ (SimpleBackend.extract_youtube_id url = None ↔
     ¬ ∃ id, IdSpec.first_pattern url id ∨ IdSpec.second_pattern url id)
  ∧ (contains "youtube.com" url = true → contains "v=" url = true →
     ∃ id, Backend.extract_video_id url = Ok id ∧ IdSpec.cut_at "&" "v=" url id)
  ∧ (contains "youtube.com" url = true → contains "v=" url = false →
     contains "/embed/" url = true →
     ∃ id, Backend.extract_video_id url = Ok id ∧ IdSpec.cut_at "?" "/embed/" url id)
  ∧ (contains "youtube.com" url = true → contains "v=" url = false →
     contains "/embed/" url = false → Backend.extract_video_id url = Ok "")
  ∧ (contains "youtube.com" url = false → contains "youtu.be" url = true →
     contains "youtu.be/" url = true →
     ∃ id, Backend.extract_video_id url = Ok id ∧ IdSpec.cut_at "?" "youtu.be/" url id)
  ∧ (contains "youtube.com" url = false → contains "youtu.be" url = false →
     Backend.extract_video_id url = Ok "")
  ∧ SimpleBackend.extract_youtube_id "https://www.youtube.com/watch?v=ABC123&t=5"
    = Some "ABC123"
  ∧ SimpleBackend.extract_youtube_id "https://youtu.be/XYZ789?x=1" = Some "XYZ789"
  ∧ SimpleBackend.extract_youtube_id "https://example.com/video/42" = None
  ∧ Backend.extract_video_id "https://www.youtube.com/watch?v=ABC123&t=5" = Ok "ABC123"
  ∧ Backend.extract_video_id "https://youtu.be/XYZ789?x=1" = Ok "XYZ789"
  ∧ Backend.extract_video_id "https://example.com/video/42" = Ok "".
Proof.
  unfold SimpleBackend.extract_youtube_id, Backend.extract_video_id.
  split_and!; [| | | | | | | |by vm_compute..].
  - intros [id' [id Hid]%first_pattern_found].
    exists id. rewrite Hid. split; [done|]. by apply search_pattern1_Some.
  - intros Hno id [H|[_ H]]%orelse_Some.
    + destruct Hno. exists id. by apply search_pattern1_Some.
    + by apply search_pattern2_Some.
  - rewrite orelse_None. split.
    + intros [H1 H2] [id [[? H]%first_pattern_found|[? H]%second_pattern_found]];
        congruence.
    + intros Hno. split.
      * destruct (search SimpleBackend.pattern1 url) as [id|] eqn:E; [|done].
        destruct Hno. exists id. left. by apply search_pattern1_Some.
      * destruct (search SimpleBackend.pattern2 url) as [id|] eqn:E; [|done].
        destruct Hno. exists id. right. by apply search_pattern2_Some.
  - intros -> Hv. rewrite Hv. by apply split_cut.
  - intros -> -> He. rewrite He. by apply split_cut.
  - by intros -> -> ->.
  - intros -> -> Hs. by apply split_cut.
  - by intros -> ->.
Qed.

Lemma extract_youtube_id_spec_witness :
  ∃ id, SimpleBackend.extract_youtube_id "https://www.youtube.com/embed/dQw4w9WgXcQ#t=1"
        = Some id
      ∧ IdSpec.first_pattern "https://www.youtube.com/embed/dQw4w9WgXcQ#t=1" id.
Proof.
  apply (extract_youtube_id_spec "https://www.youtube.com/embed/dQw4w9WgXcQ#t=1").
  exists "dQw4w9WgXcQ", "https://www.", "youtube.com/embed/", "#t=1".
  split_and!; [|reflexivity|by vm_compute..].
  by do 2 apply list_elem_of_further; apply list_elem_of_here.
Defined.

(** C3 as stated fails on the split-based extractor: behind [v=] it cuts at
    [&] only, so the identifier it returns runs past a [#], where the
    regular-expression extractor stops. *)
Lemma extract_video_id_runs_past_hash :
  Backend.extract_video_id "https://www.youtube.com/watch?v=ABC123#t=5" = Ok "ABC123#t=5"
  ∧ all_chars (fun c => negb (SimpleBackend.id_stop c)) "ABC123#t=5" = false
  ∧ SimpleBackend.extract_youtube_id "https://www.youtube.com/watch?v=ABC123#t=5"
    = Some "ABC123".
Proof. split_and!; by vm_compute. Qed.

(** C4.  The format normalizers are idempotent.  The output of either
    normalizer, read back as its input, comes out unchanged; and so does
    every sequence that is already a valid normalizer output (strictly
    descending by positive height, hence without duplicates, each entry
    labelled with its height as the normalizers label it, at most as long
    as the cap): the result equals the input entry for entry and field for
    field. *)
Theorem normalizer_idempotent (formats : list format) (out : list format_entry) :
  Backend.extract_formats (map as_format (Backend.extract_formats formats))
  = Backend.extract_formats formats
  ∧ take 10 (App.collect_formats (map as_format (take 10 (App.collect_formats formats))))
    = take 10 (App.collect_formats formats)
  ∧ (valid_output 5 out → Backend.extract_formats (map as_format out) = out)
  ∧ (valid_output 10 out → take 10 (App.collect_formats (map as_format out)) = out).
Proof.
  rewrite !extract_formats_unfold, !collect_formats_unfold.
  split_and!.
  - by apply normalize_twice; [|apply backend_entry_as_format|].
  - by apply normalize_twice; [|apply app_entry_as_format|].
  - intros Hvalid. pose proof (valid_output_nonzero _ _ Hvalid) as Hnz.
    destruct Hvalid as (Hdesc & _ & Hlen).
    by apply normalize_fixed; [apply backend_entry_as_format|..].
  - intros Hvalid. pose proof (valid_output_nonzero _ _ Hvalid) as Hnz.
    destruct Hvalid as (Hdesc & _ & Hlen).
    by apply normalize_fixed; [apply app_entry_as_format|..].
Qed.

Lemma normalizer_idempotent_witness :
  Backend.extract_formats
    (map as_format
       [{| format_id := Some "137"; quality := "1080p"; height := 1080;
           ext := Some "mp4"; filesize := None |};
        {| format_id := Some "22"; quality := "720p"; height := 720;
           ext := Some "mp4"; filesize := Some 1000 |}])
  = [{| format_id := Some "137"; quality := "1080p"; height := 1080;
        ext := Some "mp4"; filesize := None |};
     {| format_id := Some "22"; quality := "720p"; height := 720;
        ext := Some "mp4"; filesize := Some 1000 |}]
  ∧ take 10 (App.collect_formats
       (map as_format
          [{| format_id := None; quality := "1080p"; height := 1080;
              ext := Some "webm"; filesize := None |}]))
    = [{| format_id := None; quality := "1080p"; height := 1080;
          ext := Some "webm"; filesize := None |}].
Proof.
  split.
  - apply (normalizer_idempotent []). vm_compute. split_and!; by repeat constructor.
  - apply (normalizer_idempotent []). vm_compute. split_and!; by repeat constructor.
Defined.

(** Where [extract_video_id] raises: exactly on the URLs that hold
    [youtu.be] without the slash after it, and no [youtube.com]. *)
Lemma extract_video_id_raises (url : string) :
  (∃ e, Backend.extract_video_id url = Raise e) ↔
  contains "youtube.com" url = false ∧ contains "youtu.be" url = true
  ∧ contains "youtu.be/" url = false.
Proof.
  unfold Backend.extract_video_id.
  destruct (contains "youtube.com" url).
  { split; [|by intros [[=] _]].
    destruct (contains "v=" url) eqn:Ev.
    - apply split_contains in Ev as (a & b & rest & ->); [|done]. by intros [e [=]].
    - destruct (contains "/embed/" url) eqn:Ee; [|by intros [e [=]]].
      apply split_contains in Ee as (a & b & rest & ->); [|done]. by intros [e [=]]. }
  destruct (contains "youtu.be" url); [|split; [by intros [e [=]]|by intros (_ & [=] & _)]].
  destruct (contains "youtu.be/" url) eqn:Es.
  - apply split_contains in Es as (a & b & rest & ->); [|done].
    split; [by intros [e [=]]|by intros (_ & _ & [=])].
  - rewrite (split_not_contains _ _ Es). split; [done|]. intros _. by eexists.
Qed.

(** The fallback set where the identifier extraction returns: the five
    services in order, each holding the escaped URL or the identifier. *)
Lemma generate_fallback_urls_ok (url id : string) :
  Backend.extract_video_id url = Ok id →
  Backend.generate_fallback_urls url =
  Ok [("savefrom", "https://savefrom.net/#url=" ++ replace "=" "%3D" (replace "&" "%26" url));
      ("y2mate", "https://www.y2mate.com/youtube/" ++ id);
      ("keepvid", "https://keepvid.com/?url=" ++ replace "=" "%3D" (replace "&" "%26" url));
      ("clipconverter",
       "https://www.clipconverter.cc/2/#url=" ++ replace "=" "%3D" (replace "&" "%26" url));
      ("onlinevideoconverter",
       "https://www.onlinevideoconverter.com/success?url="
       ++ replace "=" "%3D" (replace "&" "%26" url))].
Proof. unfold Backend.generate_fallback_urls. by intros ->. Qed.

Lemma generate_fallback_urls_keys (url : string) (urls : list (string * string)) :
  Backend.generate_fallback_urls url = Ok urls →
  map fst urls = ["savefrom"; "y2mate"; "keepvid"; "clipconverter"; "onlinevideoconverter"].
Proof.
  unfold Backend.generate_fallback_urls.
  destruct (Backend.extract_video_id url); simpl; [|done]. by intros [= <-].
Qed.

(** C5, a defect of the code.  For every URL the fallback URL generator is
    to return, without raising, the mapping of the five services, each value
    made of the escaped URL or of the derived identifier, the empty string
    where none can be derived.  It does so wherever the identifier
    extraction returns ([generate_fallback_urls_ok]), but on a URL that
    holds [youtu.be] with no slash behind it [extract_video_id] indexes a
    split of one piece: the [IndexError] leaves [generate_fallback_urls]
    and, raised in the [except] branch of [do_GET], the handler. *)
Theorem fallback_urls_raise_on_bare_host :
  Backend.extract_video_id "https://youtu.be"
  = Raise (Exn IndexError "list index out of range")
  ∧ Backend.generate_fallback_urls "https://youtu.be"
    = Raise (Exn IndexError "list index out of range")
  ∧ Backend.do_GET Examples.failing_system
      (Examples.url_request "/download" "https://youtu.be")
    = Raise (Exn IndexError "list index out of range").
Proof. split_and!; by vm_compute. Qed.

(** The bodies [handle_download] of the scrape-only variant writes on
    failure hold the keys [success] and [error] and nothing else. *)
Lemma handle_download_failure_keys (query_params : gmap string (list string))
    (answer : json) :
  SimpleBackend.handle_download query_params = Ok answer →
  member "success" answer = Some (JBool false) →
  keys answer = ["success"; "error"].
Proof.
  unfold SimpleBackend.handle_download.
  destruct (query_params !! "url") as [values|]; [|by intros [= <-]].
  destruct (index values 0) as [video_url|]; [|done]. simpl.
  destruct (index _ 0) as [quality|]; [|done]. simpl.
  destruct (SimpleBackend.falsy _); by intros [= <-].
Qed.

(** C6, as amended.  In the subprocess variant (backend.py), a [/download]
    request with a URL on which [get_download_url] raises is answered, where
    the fallback generator returns, with the error message and the fallback
    set of the five services under [fallback_urls].  In the scrape-only
    variant (simple_backend.py), a [/download] request with no [url] and one
    whose URL yields no identifier are each answered with a body that holds
    [success], false, and [error] and nothing else, and every failure body
    of [/download] has these two keys only: no fallback set. *)
Theorem download_failure_bodies :
  (∀ (sys : Backend.system) (req : request) (url quality : string) (e : exn)
     (fallback : list (string * string)),
     path req = "/download" →
     Backend.param req "url" "" = Ok url → url ≠ "" →
     Backend.param req "quality" "best" = Ok quality →
     Backend.get_download_url sys url quality = Raise e →
     Backend.generate_fallback_urls url = Ok fallback →
     Backend.do_GET sys req
     = Ok {| status := 200;
             body := JObj [("error", JStr ("Failed to get download URL: " ++ exn_str e));
                           ("fallback_urls", Backend.fallback_json fallback)] |}
     ∧ keys (Backend.fallback_json fallback)
       = ["savefrom"; "y2mate"; "keepvid"; "clipconverter"; "onlinevideoconverter"])
  ∧ (∀ (fetch : SimpleBackend.fetcher) (req : request),
       path req = "/download" → query req !! "url" = None →
       SimpleBackend.do_GET fetch req
       = Ok {| status := 200;
               body := JObj [("success", JBool false);
                             ("error", JStr "URL parameter required")] |})
  ∧ (∀ (fetch : SimpleBackend.fetcher) (req : request) (video_url : string)
       (more : list string),
       path req = "/download" → parsed (query req) →
       query req !! "url" = Some (video_url :: more) →
       SimpleBackend.extract_youtube_id video_url = None →
       SimpleBackend.do_GET fetch req
       = Ok {| status := 200;
               body := JObj [("success", JBool false);
                             ("error", JStr "Invalid YouTube URL")] |})
  ∧ (∀ (fetch : SimpleBackend.fetcher) (req : request) (r : response),
       path req = "/download" →
       SimpleBackend.do_GET fetch req = Ok r →
       member "success" (body r) = Some (JBool false) →
       keys (body r) = ["success"; "error"] ∧ member "fallback_urls" (body r) = None).
Proof.
  split_and!.
  - intros sys req url quality e fallback Hpath Hurl Hne Hq Hfail Hfb.
    unfold Backend.do_GET. rewrite Hpath. simpl. rewrite Hurl, Hq. simpl.
    destruct (String.eqb_spec url ""); [done|]. simpl.
    rewrite Hfail, Hfb. simpl. split; [done|].
    rewrite <- (generate_fallback_urls_keys _ _ Hfb).
    unfold Backend.fallback_json. simpl. by rewrite map_map.
  - intros fetch req Hpath Hurl.
    unfold SimpleBackend.do_GET, SimpleBackend.handle_download.
    by rewrite Hpath, Hurl.
  - intros fetch req video_url more Hpath Hparsed Hurl Hid.
    unfold SimpleBackend.do_GET, SimpleBackend.handle_download.
    rewrite Hpath, Hurl. simpl.
    destruct (query req !! "quality") as [values|] eqn:Eq; simpl;
      [|by rewrite Hid].
    destruct values as [|quality values]; simpl; [|by rewrite Hid].
    by destruct (Hparsed "quality" [] Eq).
  - intros fetch req r Hpath. unfold SimpleBackend.do_GET. rewrite Hpath. simpl.
    destruct (SimpleBackend.handle_download (query req)) as [answer|] eqn:E; [|done].
    simpl. intros [= <-]. simpl. intros Hfalse.
    pose proof (handle_download_failure_keys (query req) answer E Hfalse) as Hkeys.
    split; [done|].
    destruct answer as [| | | | |members]; try done. simpl in Hkeys |- *.
    destruct members as [|[k1 v1] [|[k2 v2] [|]]]; try done.
    simpl in Hkeys. injection Hkeys as -> ->. done.
Qed.

Lemma download_failure_bodies_witness :
  Backend.do_GET Examples.failing_system
    (Examples.request_of "/download" "https://youtu.be/XYZ789" "720")
  = Ok {| status := 200;
          body := JObj [("error",
                         JStr "Failed to get download URL: Download URL generation failed: yt-dlp error: ERROR: Unsupported URL");
                        ("fallback_urls",
                         JObj [("savefrom", JStr "https://savefrom.net/#url=https://youtu.be/XYZ789");
                               ("y2mate", JStr "https://www.y2mate.com/youtube/XYZ789");
                               ("keepvid", JStr "https://keepvid.com/?url=https://youtu.be/XYZ789");
                               ("clipconverter", JStr "https://www.clipconverter.cc/2/#url=https://youtu.be/XYZ789");
                               ("onlinevideoconverter", JStr "https://www.onlinevideoconverter.com/success?url=https://youtu.be/XYZ789")])] |}
  ∧ SimpleBackend.do_GET Examples.offline {| path := "/download"; query := ∅ |}
    = Ok {| status := 200;
            body := JObj [("success", JBool false);
                          ("error", JStr "URL parameter required")] |}
  ∧ SimpleBackend.do_GET Examples.offline
      (Examples.request_of "/download" "https://example.com/watch" "360")
    = Ok {| status := 200;
            body := JObj [("success", JBool false);
                          ("error", JStr "Invalid YouTube URL")] |}
  ∧ keys (body {| status := 200;
                  body := SimpleBackend.send_error_response "Invalid YouTube URL" |})
    = ["success"; "error"]
  ∧ member "fallback_urls"
      (body {| status := 200;
               body := SimpleBackend.send_error_response "Invalid YouTube URL" |}) = None.
Proof.
  destruct download_failure_bodies as (Hbackend & Hmissing & Hinvalid & Hsimple).
  split_and!.
  - refine (proj1 (Hbackend Examples.failing_system
                     (Examples.request_of "/download" "https://youtu.be/XYZ789" "720")
                     "https://youtu.be/XYZ789" "720"
                     (Exn Exception "Download URL generation failed: yt-dlp error: ERROR: Unsupported URL")
                     [("savefrom", "https://savefrom.net/#url=https://youtu.be/XYZ789");
                      ("y2mate", "https://www.y2mate.com/youtube/XYZ789");
                      ("keepvid", "https://keepvid.com/?url=https://youtu.be/XYZ789");
                      ("clipconverter", "https://www.clipconverter.cc/2/#url=https://youtu.be/XYZ789");
                      ("onlinevideoconverter", "https://www.onlinevideoconverter.com/success?url=https://youtu.be/XYZ789")]
                     _ _ _ _ _ _));
      [reflexivity|by vm_compute|done|by vm_compute|by vm_compute|by vm_compute].
  - apply (Hmissing Examples.offline {| path := "/download"; query := ∅ |});
      [reflexivity|by vm_compute].
  - apply (Hinvalid Examples.offline
             (Examples.request_of "/download" "https://example.com/watch" "360")
             "https://example.com/watch" []); [reflexivity| |by vm_compute|by vm_compute].
    intros key values Hlookup. simpl in Hlookup.
    apply lookup_insert_Some in Hlookup as [[_ <-]|[_ Hlookup]]; [done|].
    by apply lookup_singleton_Some in Hlookup as [_ <-].
  - apply (Hsimple Examples.offline (Examples.url_request "/download" "https://example.com/"));
      [reflexivity|by vm_compute|reflexivity].
  - apply (Hsimple Examples.offline (Examples.url_request "/download" "https://example.com/"));
      [reflexivity|by vm_compute|reflexivity].
Defined.

(** C6 as stated fails: the scrape-only variant answers a [/download]
    request whose URL yields no identifier with an error body that holds no
    fallback set. *)
Lemma download_failure_without_fallback :
  SimpleBackend.do_GET Examples.offline
    (Examples.url_request "/download" "https://example.com/")
  = Ok {| status := 200;
          body := JObj [("success", JBool false); ("error", JStr "Invalid YouTube URL")] |}
  ∧ member "fallback_urls"
      (JObj [("success", JBool false); ("error", JStr "Invalid YouTube URL")]) = None.
Proof. split; by vm_compute. Qed.

(** Every answer [do_GET] of the subprocess variant completes has status
    200: the status line is sent before the endpoint is looked at. *)
Lemma backend_status_200 (sys : Backend.system) (req : request) (r : response) :
  Backend.do_GET sys req = Ok r → status r = 200.
Proof.
  unfold Backend.do_GET. destruct (if String.eqb _ _ then _ else _); [|done].
  by intros [= <-].
Qed.

(** C7, as amended.  In the full server (app.py), an [/info] or [/stream]
    request on which the extraction raises is answered with status 400 and a
    detail that ends with the exception's text as it is.  In the subprocess
    variant (backend.py) every answer has status 200; a failed [/video-info]
    carries the message of [get_video_info] in the [error] key of the body,
    which holds the standard error of yt-dlp as it is after a non-zero exit,
    and a fixed text in place of the exception's after a timeout. *)
Theorem extraction_failure_answers :
  (∀ (extract_info : App.extractor) (url : string) (e : exn),
     extract_info [("quiet", JBool true); ("no_warnings", JBool true);
                   ("extract_flat", JBool false)] url false = Raise e →
     App.get_video_info extract_info url
     = {| status := 400;
          body := JObj [("detail", JStr ("Failed to extract info: " ++ exn_str e))] |})
  ∧ (∀ (extract_info : App.extractor) (url quality : string) (e : exn),
       extract_info [("quiet", JBool true); ("no_warnings", JBool true);
                     ("format", JStr (App.stream_format_selector quality))] url false
       = Raise e →
       App.stream_video_url extract_info url quality
       = {| status := 400;
            body := JObj [("detail",
                           JStr ("Stream URL extraction failed: " ++ exn_str e))] |})
  ∧ (∀ (sys : Backend.system) (req : request) (r : response),
       Backend.do_GET sys req = Ok r → status r = 200)
  ∧ (∀ (sys : Backend.system) (req : request) (url : string) (e : exn)
       (fallback : list (string * string)),
       path req = "/video-info" →
       Backend.param req "url" "" = Ok url → url ≠ "" →
       Backend.get_video_info sys url = Raise e →
       Backend.generate_fallback_urls url = Ok fallback →
       Backend.do_GET sys req
       = Ok {| status := 200;
               body := JObj [("error", JStr ("Failed to get video info: " ++ exn_str e));
                             ("fallback_urls", Backend.fallback_json fallback)] |})
  ∧ (∀ (sys : Backend.system) (url : string) (result : Backend.completed),
       Backend.ensure_ytdlp_installed sys = Ok () →
       Backend.run sys ["yt-dlp"; "--dump-json"; "--no-download"; url] = Ok result →
       Backend.returncode result ≠ 0 →
       Backend.get_video_info sys url
       = Raise (Exn Exception ("Video info extraction failed: yt-dlp error: "
                               ++ Backend.stderr result)))
  ∧ (∀ (sys : Backend.system) (url text : string),
       Backend.ensure_ytdlp_installed sys = Ok () →
       Backend.run sys ["yt-dlp"; "--dump-json"; "--no-download"; url]
       = Raise (Exn TimeoutExpired text) →
       Backend.get_video_info sys url
       = Raise (Exn Exception "Request timeout - video processing took too long")).
Proof.
  split_and!.
  - intros extract_info url e He. unfold App.get_video_info. by rewrite He.
  - intros extract_info url quality e He. unfold App.stream_video_url. by rewrite He.
  - apply backend_status_200.
  - intros sys req url e fallback Hpath Hurl Hne Hfail Hfb.
    unfold Backend.do_GET. rewrite Hpath. simpl. rewrite Hurl. simpl.
    destruct (String.eqb_spec url ""); [done|]. simpl. by rewrite Hfail, Hfb.
  - intros sys url result Hens Hrun Hrc. unfold Backend.get_video_info.
    rewrite Hens, Hrun. simpl. by destruct (Z.eqb_spec (Backend.returncode result) 0).
  - intros sys url text Hens Hrun. unfold Backend.get_video_info.
    by rewrite Hens, Hrun.
Qed.

Lemma extraction_failure_answers_witness :
  App.get_video_info Examples.failing_extractor "https://example.com/"
  = {| status := 400;
       body := JObj [("detail", JStr "Failed to extract info: ERROR: Unsupported URL")] |}
  ∧ App.stream_video_url Examples.failing_extractor "https://example.com/" "720p"
    = {| status := 400;
         body := JObj [("detail",
                        JStr "Stream URL extraction failed: ERROR: Unsupported URL")] |}
  ∧ Backend.get_video_info Examples.failing_system "https://youtu.be/XYZ789"
    = Raise (Exn Exception
               "Video info extraction failed: yt-dlp error: ERROR: Unsupported URL").
Proof.
  destruct extraction_failure_answers as (Hinfo & Hstream & _ & _ & Hexit & _).
  split_and!.
  - by apply (Hinfo Examples.failing_extractor "https://example.com/"
                (Exn Exception "ERROR: Unsupported URL")).
  - by apply (Hstream Examples.failing_extractor "https://example.com/" "720p"
                (Exn Exception "ERROR: Unsupported URL")).
  - by apply (Hexit Examples.failing_system "https://youtu.be/XYZ789"
                (Backend.Completed 1 "" "ERROR: Unsupported URL")).
Defined.

(** C7 as stated fails: the subprocess variant answers a [/video-info]
    request on which yt-dlp fails with status 200, not with a 4xx or 5xx
    status. *)
Lemma video_info_failure_status_200 :
  ∃ r, Backend.do_GET Examples.failing_system
         (Examples.url_request "/video-info" "https://youtu.be/XYZ789") = Ok r
       ∧ member "error" (body r)
         = Some (JStr "Failed to get video info: Video info extraction failed: yt-dlp error: ERROR: Unsupported URL")
       ∧ status r = 200
       ∧ ¬ (400 ≤ status r < 600).
Proof. eexists. split_and!; [by vm_compute..|]. simpl. lia. Qed.

(** What the title pattern captures: the text between [<title>] and
    [</title>], not empty and free of [<]. *)
Lemma title_pattern_Some (html title : string) :
  search SimpleBackend.title_pattern html = Some title →
  ∃ pre post, html = pre ++ "<title>" ++ title ++ "</title>" ++ post
              ∧ title ≠ ""
              ∧ all_chars (fun c => negb (Ascii.eqb "<" c)) title = true.
Proof.
  intros (pre & s & -> & Hs)%search_Some. unfold SimpleBackend.title_pattern in Hs.
  destruct (strip_prefix "<title>" s) as [rest|] eqn:E; [|done].
  apply strip_prefix_Some in E as ->.
  destruct (span (Ascii.eqb "<") rest) as [run after] eqn:Er.
  apply span_spec in Er as (-> & Hrun & _).
  destruct (String.eqb_spec run ""); [done|]. simpl in Hs.
  destruct (startswith "</title>" after) eqn:Ea; [|done].
  injection Hs as ->. unfold startswith in Ea.
  destruct (strip_prefix "</title>" after) as [post|] eqn:Ep; [|done].
  apply strip_prefix_Some in Ep as ->. by exists pre, post.
Qed.

(** C8, as amended.  For every video identifier the scrape-path lookup
    returns a title and never raises.  On a fetched page with a title
    marker the title is the marked text with every [' - YouTube'] taken out
    and the white space at both ends stripped; on a fetched page without
    the marker it is ['Video <id>'] put through the same clean-up; when the
    fetch raises it is ['Video <id>'] as it stands.  The thumbnail of a
    successful [/video-info] answer is the fixed template around the
    identifier extracted from the URL. *)
Theorem scrape_title_cases (fetch : SimpleBackend.fetcher) (video_id : string) :
  (∃ title, SimpleBackend.get_youtube_info fetch video_id
            = Ok (JObj [("title", JStr title)]))
  ∧ (∀ html marked,
       fetch ("https://www.youtube.com/watch?v=" ++ video_id) = Ok html →
       search SimpleBackend.title_pattern html = Some marked →
       SimpleBackend.get_youtube_info fetch video_id
       = Ok (JObj [("title", JStr (strip (replace " - YouTube" "" marked)))]))
  ∧ (∀ html,
       fetch ("https://www.youtube.com/watch?v=" ++ video_id) = Ok html →
       search SimpleBackend.title_pattern html = None →
       SimpleBackend.get_youtube_info fetch video_id
       = Ok (JObj [("title",
                    JStr (strip (replace " - YouTube" "" ("Video " ++ video_id))))]))
  ∧ (∀ e,
       fetch ("https://www.youtube.com/watch?v=" ++ video_id) = Raise e →
       SimpleBackend.get_youtube_info fetch video_id
       = Ok (JObj [("title", JStr ("Video " ++ video_id))]))
  ∧ (∀ query_params answer,
       SimpleBackend.handle_video_info fetch query_params = Ok answer →
       member "success" answer = Some (JBool true) →
       ∃ video_url rest id,
         query_params !! "url" = Some (video_url :: rest)
         ∧ SimpleBackend.extract_youtube_id video_url = Some id
         ∧ member "thumbnail" answer
           = Some (JStr ("https://i.ytimg.com/vi/" ++ id ++ "/hqdefault.jpg"))).
Proof.
  unfold SimpleBackend.get_youtube_info. split_and!.
  - destruct (fetch _) as [html|e]; simpl; by eexists.
  - intros html marked Hfetch Hmarked. rewrite Hfetch. simpl. by rewrite Hmarked.
  - intros html Hfetch Hmarked. rewrite Hfetch. simpl. by rewrite Hmarked.
  - by intros e ->.
  - intros query_params answer. unfold SimpleBackend.handle_video_info.
    destruct (query_params !! "url") as [[|video_url rest]|]; [done| |by intros [= <-]].
    simpl.
    destruct (SimpleBackend.extract_youtube_id video_url) as [id|] eqn:Eid;
      [|by intros [= <-]].
    simpl. destruct (String.eqb id ""); [by intros [= <-]|].
    destruct (SimpleBackend.get_youtube_info fetch id) as [dict|e]; simpl;
      intros [= <-]; [|done].
    intros _. by exists video_url, rest, id.
Qed.

Lemma scrape_title_cases_witness :
  SimpleBackend.get_youtube_info (Examples.page "<html><title>Intro - YouTube</title>")
    "XYZ789"
  = Ok (JObj [("title", JStr "Intro")])
  ∧ SimpleBackend.get_youtube_info Examples.offline "XYZ789"
    = Ok (JObj [("title", JStr "Video XYZ789")]).
Proof.
  split.
  - destruct (scrape_title_cases (Examples.page "<html><title>Intro - YouTube</title>")
                "XYZ789") as (_ & Hmarked & _).
    exact (Hmarked "<html><title>Intro - YouTube</title>" "Intro - YouTube"
             eq_refl eq_refl).
  - destruct (scrape_title_cases Examples.offline "XYZ789") as (_ & _ & _ & Hdown & _).
    exact (Hdown (Exn Exception "<urlopen error timed out>") eq_refl).
Defined.

(** C8 as stated fails: on a marked title that holds [' - YouTube'] twice
    the lookup takes both out, which is not the title with the suffix
    stripped. *)
Lemma scrape_title_not_suffix_stripped :
  search SimpleBackend.title_pattern "<title>Best of - YouTube Rewind - YouTube</title>"
  = Some "Best of - YouTube Rewind - YouTube"
  ∧ TitleSpec.strip_suffix " - YouTube" "Best of - YouTube Rewind - YouTube"
    = "Best of - YouTube Rewind"
  ∧ SimpleBackend.get_youtube_info
      (Examples.page "<title>Best of - YouTube Rewind - YouTube</title>") "XYZ789"
    = Ok (JObj [("title", JStr "Best of Rewind")])
  ∧ SimpleBackend.get_youtube_info
      (Examples.page "<title>Best of - YouTube Rewind - YouTube</title>") "XYZ789"
    ≠ Ok (JObj [("title",
                 JStr (TitleSpec.strip_suffix " - YouTube"
                         "Best of - YouTube Rewind - YouTube"))]).
Proof. split_and!; by vm_compute. Qed.

Lemma stream_url_of_last (i : info) (formats : list format) (best_format : format) :
  info_url i = Absent → info_formats i = Val (formats ++ [best_format])%list →
  App.stream_url_of i = Ok (json_str (get (fmt_url best_format) (Some ""))).
Proof.
  unfold App.stream_url_of. intros -> ->.
  destruct formats as [|fmt formats]; simpl; [done|]. by rewrite List.last_last.
Qed.

(** C9.  For every [/stream] request on which the extraction returns, the
    stream URL of the answer is the value of the top-level [url] key where
    the info dictionary has that key; otherwise, where the format list is
    not empty, it is the [url] of the last entry of the list (the empty
    string where that entry has no such key); where the dictionary has
    neither, the answer is the error envelope with status 400 and no body
    with a stream URL is returned. *)
Theorem stream_url_choice (extract_info : App.extractor) (url quality : string)
    (i : info) :
  extract_info [("quiet", JBool true); ("no_warnings", JBool true);
                ("format", JStr (App.stream_format_selector quality))] url false = Ok i →
  (has_key (info_url i) = true →
     status (App.stream_video_url extract_info url quality) = 200
     ∧ member "stream_url" (body (App.stream_video_url extract_info url quality))
       = Some (json_any (get (info_url i) None)))
  ∧ (∀ formats best_format,
       info_url i = Absent → info_formats i = Val (formats ++ [best_format])%list →
       status (App.stream_video_url extract_info url quality) = 200
       ∧ member "stream_url" (body (App.stream_video_url extract_info url quality))
         = Some (json_str (get (fmt_url best_format) (Some ""))))
  ∧ (info_url i = Absent →
     info_formats i = Absent ∨ info_formats i = Null ∨ info_formats i = Val [] →
     App.stream_video_url extract_info url quality
     = {| status := 400;
          body := JObj [("detail",
                         JStr "Stream URL extraction failed: No stream URL found")] |}).
Proof.
  intros Hinfo. unfold App.stream_video_url. rewrite Hinfo. simpl.
  split_and!.
  - unfold App.stream_url_of. by intros ->.
  - intros formats best_format Hurl Hformats.
    by rewrite (stream_url_of_last _ _ _ Hurl Hformats).
  - unfold App.stream_url_of. by intros -> [->|[->| ->]].
Qed.

Lemma stream_url_choice_witness :
  status (App.stream_video_url (Examples.extractor_of Examples.two_formats_info)
            "https://youtu.be/XYZ789" "best") = 200
  ∧ member "stream_url"
      (body (App.stream_video_url (Examples.extractor_of Examples.two_formats_info)
               "https://youtu.be/XYZ789" "best"))
    = Some (JStr "https://cdn/22").
Proof.
  destruct (stream_url_choice (Examples.extractor_of Examples.two_formats_info)
              "https://youtu.be/XYZ789" "best" Examples.two_formats_info eq_refl)
    as (_ & Hlast & _).
  exact (Hlast [Examples.video 360 "18"] (Examples.video 720 "22") eq_refl eq_refl).
Defined.

(** C10.  In the scrape-only variant, for every [/download] request whose
    URL yields a video identifier, [generate_download_urls] returns exactly
    four URLs, and the answer has [success] true, the first vkrdownloader
    URL as [download_url] (never null) and the four URLs as
    [alternative_urls]. *)
Theorem download_always_four_urls (query_params : gmap string (list string))
    (video_url quality id : string) (rest : list string) :
  query_params !! "url" = Some (video_url :: rest) →
  index (default_list (query_params !! "quality") ["720"]) 0 = Ok quality →
  SimpleBackend.extract_youtube_id video_url = Some id →
  SimpleBackend.generate_download_urls video_url quality
  = ["https://vkrdownloader.xyz/server/dl.php?vkr=" ++ quote video_url ++ "&q=" ++ quality;
     "https://www.y2mate.com/youtube/" ++ id;
     "https://savefrom.net/#url=" ++ quote video_url;
     "https://vkrdownloader.xyz/server/force.php?vkr=" ++ quote video_url
       ++ "&q=" ++ quality]
  ∧ length (SimpleBackend.generate_download_urls video_url quality) = 4%nat
  ∧ SimpleBackend.handle_download query_params
    = Ok (JObj [("success", JBool true);
                ("download_url",
                 JStr ("https://vkrdownloader.xyz/server/dl.php?vkr=" ++ quote video_url
                       ++ "&q=" ++ quality));
                ("alternative_urls",
                 JList (map JStr (SimpleBackend.generate_download_urls video_url quality)));
                ("quality", JStr quality)]).
Proof.
  intros Hurl Hquality Hid.
  assert (Hfalsy : SimpleBackend.falsy (Some id) = false).
  { simpl. apply String.eqb_neq. by apply (extract_youtube_id_nonempty video_url). }
  assert (Hurls : SimpleBackend.generate_download_urls video_url quality
                  = ["https://vkrdownloader.xyz/server/dl.php?vkr=" ++ quote video_url
                       ++ "&q=" ++ quality;
                     "https://www.y2mate.com/youtube/" ++ id;
                     "https://savefrom.net/#url=" ++ quote video_url;
                     "https://vkrdownloader.xyz/server/force.php?vkr=" ++ quote video_url
                       ++ "&q=" ++ quality]).
  { unfold SimpleBackend.generate_download_urls. by rewrite Hid, Hfalsy. }
  split_and!; [done|by rewrite Hurls|].
  unfold SimpleBackend.handle_download. rewrite Hurl. simpl. rewrite Hquality. simpl.
  rewrite Hid, Hfalsy. by rewrite Hurls.
Qed.

Lemma download_always_four_urls_witness :
  length (SimpleBackend.generate_download_urls "https://youtu.be/XYZ789?x=1" "720") = 4%nat.
Proof.
  refine (proj1 (proj2 (download_always_four_urls
                          {[ "url" := ["https://youtu.be/XYZ789?x=1"] ]}
                          "https://youtu.be/XYZ789?x=1" "720" "XYZ789" [] _ _ _)));
    by vm_compute.
Defined.

End Claims.

(** ** Further properties: the format normalizers *)

Section SelectionFacts.

Import Normalizer Selection.

Context (entry : format → Z → format_entry).
Context (entry_height : ∀ fmt h, height (entry fmt h) = h).

Lemma qualifies_height (fmt : format) (h h' : Z) :
  qualifies fmt h → qualifies fmt h' → h = h'.
Proof. intros (_ & H & _) (_ & H' & _). congruence. Qed.

Lemma first_with_snoc (passed : list format) (fmt f : format) (h : Z) :
  first_with passed fmt h → first_with (passed ++ [f]) fmt h.
Proof.
  intros (before & after & -> & Hq & Hfirst).
  exists before, (after ++ [f])%list. by rewrite <- app_assoc.
Qed.

Lemma step_seen_ok (passed : list format) (st : list format_entry * gset Z)
    (fmt : format) :
  seen_ok entry passed st → seen_ok entry (passed ++ [fmt]) (step entry st fmt).
Proof.
  destruct st as [kept seen]. intros (Hseen & Hkept & Hfirst). simpl in *.
  assert (Hstay : (∀ h, qualifies fmt h → h ∈ seen) →
                  seen_ok entry (passed ++ [fmt]) (kept, seen)).
  { intros Hold. split_and!; simpl.
    - intros h. rewrite Hseen. split.
      + intros (f & Hf & Hq). exists f. split; [|done].
        apply elem_of_app. by left.
      + intros (f & [Hf| ->%list_elem_of_singleton]%elem_of_app & Hq); [by exists f|].
        apply Hseen. by apply Hold.
    - done.
    - intros e He. destruct (Hfirst e He) as (f & Hf & Heq).
      exists f. split; [by apply first_with_snoc|done]. }
  unfold step. case_bool_decide as Hv.
  { apply Hstay. intros h (Hna & _). by destruct Hna. }
  destruct (get (fmt_height fmt) (Some 0)) as [h|] eqn:Eh;
    [|apply Hstay; intros h (_ & ? & _); congruence].
  case_bool_decide as Hh.
  - destruct Hh as [Hh0 Hnew]. split_and!; simpl.
    + intros h'. rewrite elem_of_union, elem_of_singleton, Hseen. split.
      * intros [->|(f & Hf & Hq)].
        -- exists fmt. split; [|done]. apply elem_of_app. right.
           by apply list_elem_of_singleton.
        -- exists f. split; [|done]. apply elem_of_app. by left.
      * intros (f & [Hf| ->%list_elem_of_singleton]%elem_of_app & Hq).
        -- right. by exists f.
        -- left. destruct Hq as (_ & Hq & _). congruence.
    + intros h' [->%elem_of_singleton|Hin]%elem_of_union.
      * exists (entry fmt h). split; [|apply entry_height].
        apply elem_of_app. right. by apply list_elem_of_singleton.
      * destruct (Hkept h' Hin) as (e & He & Heq). exists e. split; [|done].
        apply elem_of_app. by left.
    + intros e [He| ->%list_elem_of_singleton]%elem_of_app.
      * destruct (Hfirst e He) as (f & Hf & Heq).
        exists f. split; [by apply first_with_snoc|done].
      * rewrite entry_height. exists fmt. split; [|done].
        exists passed, []. split_and!; [done|done|].
        intros f Hf Hq. apply Hnew. apply Hseen. by exists f.
  - apply Hstay. intros h' (_ & Hq & Hnz).
    assert (h' = h) as -> by congruence.
    destruct (decide (h ∈ seen)) as [|Hnotin]; [done|]. by destruct Hh.
Qed.

Lemma loop_seen_ok (passed rest : list format) (st : list format_entry * gset Z) :
  seen_ok entry passed st →
  seen_ok entry (passed ++ rest) (fold_left (step entry) rest st).
Proof.
  revert passed st. induction rest as [|fmt rest IH]; intros passed st Hst; simpl.
  - by rewrite app_nil_r.
  - replace (passed ++ fmt :: rest)%list with ((passed ++ [fmt]) ++ rest)%list
      by (by rewrite <- app_assoc).
    apply IH. by apply step_seen_ok.
Qed.

Lemma loop_seen_ok_all (formats : list format) :
  seen_ok entry formats (fold_left (step entry) formats ([], ∅)).
Proof.
  apply (loop_seen_ok [] formats ([], ∅)). split_and!; simpl.
  - intros h. split; [by intros ?%not_elem_of_empty|].
    intros (f & Hf & _). by apply elem_of_nil in Hf.
  - by intros h ?%not_elem_of_empty.
  - intros e He. by apply elem_of_nil in He.
Qed.

(** The heights the loop keeps are those of the qualifying records. *)
Lemma kept_heights (formats : list format) (h : Z) :
  h ∈ map height (fold_left (step entry) formats ([], ∅)).1 ↔
  ∃ fmt, fmt ∈ formats ∧ qualifies fmt h.
Proof.
  destruct (loop_seen_ok_all formats) as (Hseen & Hkept & Hfirst). split.
  - intros (e & -> & He)%list_elem_of_fmap.
    destruct (Hfirst e He) as (fmt & (before & after & -> & Hq & _) & _).
    exists fmt. split; [|done]. apply elem_of_app. right. apply list_elem_of_here.
  - intros Hq. apply Hseen in Hq. destruct (Hkept h Hq) as (e & He & <-).
    by apply list_elem_of_fmap_2.
Qed.

Lemma kept_heights_sorted (formats : list format) :
  strictly_descending
    (map height (sort_reverse height (fold_left (step entry) formats ([], ∅)).1)).
Proof.
  destruct (loop_kept_ok entry entry_height formats formats ([], ∅)) as [Hnd _].
  { done. }
  { split; [constructor|]. intros e He. by apply elem_of_nil in He. }
  apply descending_strict; [apply sort_reverse_sorted|].
  by rewrite sort_reverse_perm.
Qed.

(** A height missing from the first [n] of a strictly descending list is
    below all of them, and they are [n]. *)
Lemma take_descending_top (n : nat) (l : list Z) (x : Z) :
  strictly_descending l → x ∈ l →
  x ∈ take n l ∨ (length (take n l) = n ∧ Forall (fun y => x < y) (take n l)).
Proof.
  intros Hl Hx. rewrite <- (take_drop n l) in Hl, Hx.
  apply elem_of_app in Hx as [Hx|Hx]; [by left|]. right. split.
  - apply length_take_le.
    destruct (decide (n ≤ length l)%nat) as [|Hlt]; [done|].
    rewrite drop_ge in Hx by lia. by apply elem_of_nil in Hx.
  - apply Forall_forall. intros y Hy.
    by apply (StronglySorted_app_1_elem_of _ _ _ y x Hl).
Qed.

Lemma normalize_top (cap : nat) (formats : list format) (fmt : format) (h : Z) :
  fmt ∈ formats → qualifies fmt h →
  h ∈ map height
        (take cap (sort_reverse height (fold_left (step entry) formats ([], ∅)).1))
  ∨ (length (take cap (sort_reverse height
                         (fold_left (step entry) formats ([], ∅)).1)) = cap
     ∧ Forall (fun h' => h < h')
         (map height
            (take cap (sort_reverse height
                         (fold_left (step entry) formats ([], ∅)).1)))).
Proof.
  intros Hfmt Hq. rewrite <- firstn_map.
  set (kept := (fold_left (step entry) formats ([], ∅)).1).
  assert (Hin : h ∈ map height (sort_reverse height kept)).
  { rewrite sort_reverse_perm. apply kept_heights. by exists fmt. }
  destruct (take_descending_top cap _ h (kept_heights_sorted formats) Hin)
    as [?|[Hlen Hall]]; [by left|right].
  split; [|done]. rewrite firstn_map, length_map in Hlen. done.
Qed.

Lemma normalize_first_seen (cap : nat) (formats : list format) (e : format_entry) :
  e ∈ take cap (sort_reverse height (fold_left (step entry) formats ([], ∅)).1) →
  ∃ fmt, first_with formats fmt (height e) ∧ e = entry fmt (height e).
Proof.
  intros He%subseteq_take. rewrite sort_reverse_perm in He.
  by destruct (loop_seen_ok_all formats) as (_ & _ & Hfirst); apply Hfirst.
Qed.

Lemma normalize_heights_perm (cap : nat) (formats formats' : list format) :
  formats ≡ₚ formats' →
  map height
    (take cap (sort_reverse height (fold_left (step entry) formats ([], ∅)).1))
  = map height
      (take cap (sort_reverse height (fold_left (step entry) formats' ([], ∅)).1)).
Proof.
  intros Hperm. rewrite <- !firstn_map. f_equal.
  pose proof (kept_heights_sorted formats) as Hs.
  pose proof (kept_heights_sorted formats') as Hs'.
  assert (Hanti : AntiSymm (=) (fun a b : Z => b < a)).
  { intros a b ? ?. lia. }
  apply (StronglySorted_unique (fun a b : Z => b < a)); [done..|].
  apply NoDup_Permutation; [by apply descending_strict_NoDup..|].
  intros h. rewrite !sort_reverse_perm, !kept_heights.
  split; intros (fmt & Hfmt & Hq); exists fmt; split; try done.
  - by rewrite <- Hperm.
  - by rewrite Hperm.
Qed.

End SelectionFacts.

(** The sorted heights of the kept entries depend neither on the entry
    builder nor on the order of the input. *)
Lemma sorted_heights_unique (entry1 entry2 : format → Z → format_entry)
    (formats formats' : list format) :
  (∀ fmt h, height (entry1 fmt h) = h) → (∀ fmt h, height (entry2 fmt h) = h) →
  formats ≡ₚ formats' →
  map height (sort_reverse height (fold_left (Normalizer.step entry1) formats ([], ∅)).1)
  = map height
      (sort_reverse height (fold_left (Normalizer.step entry2) formats' ([], ∅)).1).
Proof.
  intros H1 H2 Hperm.
  pose proof (kept_heights_sorted entry1 H1 formats) as Hs.
  pose proof (kept_heights_sorted entry2 H2 formats') as Hs'.
  assert (Hanti : AntiSymm (=) (fun a b : Z => b < a)).
  { intros a b ? ?. lia. }
  apply (StronglySorted_unique (fun a b : Z => b < a)); [done..|].
  apply NoDup_Permutation; [by apply descending_strict_NoDup..|].
  intros h. rewrite !sort_reverse_perm, (kept_heights entry1 H1), (kept_heights entry2 H2).
  split; intros (fmt & Hfmt & Hq); exists fmt; split; try done.
  - by rewrite <- Hperm.
  - by rewrite Hperm.
Qed.

(** ** Further properties: strings *)

Section MoreStringFacts.

Lemma all_chars_filter (p : ascii → bool) (s : string) :
  all_chars p (filter_chars p s) = true.
Proof.
  induction s as [|c s IH]; simpl; [done|].
  destruct (p c) eqn:E; simpl; [by rewrite E|done].
Qed.

Lemma all_chars_impl (p q : ascii → bool) (s : string) :
  (∀ c, p c = true → q c = true) → all_chars p s = true → all_chars q s = true.
Proof.
  intros Hpq. induction s as [|c s IH]; simpl; [done|].
  intros [Hc Hs]%andb_true_iff. by rewrite (Hpq c Hc), IH.
Qed.

Lemma lstrip_not_blank (s : string) : starts_blank (lstrip s) = false.
Proof.
  induction s as [|c s IH]; simpl; [done|].
  destruct (isspace c) eqn:E; [done|]. simpl. done.
Qed.

Lemma rstrip_keeps_head (s : string) :
  starts_blank s = false → starts_blank (rstrip s) = false.
Proof.
  destruct s as [|c s]; simpl; [done|]. intros Hc.
  destruct (rstrip s); simpl; by rewrite ?Hc.
Qed.

Lemma rstrip_not_blank (s : string) : ends_blank (rstrip s) = false.
Proof.
  induction s as [|c s IH]; simpl; [done|].
  destruct (rstrip s) as [|d r] eqn:E.
  - destruct (isspace c) eqn:Ec; simpl; [done|by rewrite Ec].
  - done.
Qed.

Lemma rstrip_idem (s : string) : rstrip (rstrip s) = rstrip s.
Proof.
  induction s as [|c s IH]; simpl; [done|].
  destruct (rstrip s) as [|d r] eqn:E.
  - destruct (isspace c) eqn:Ec; simpl; [done|by rewrite Ec].
  - cbn [rstrip]. cbn [rstrip] in IH. by rewrite IH.
Qed.

Lemma lstrip_fixed (s : string) : starts_blank s = false → lstrip s = s.
Proof. destruct s as [|c s]; simpl; [done|]. by intros ->. Qed.

(** [strip] leaves no white space at either end, and stripping again
    changes nothing. *)
Lemma strip_trimmed (s : string) :
  starts_blank (strip s) = false ∧ ends_blank (strip s) = false
  ∧ strip (strip s) = strip s.
Proof.
  unfold strip. pose proof (rstrip_keeps_head _ (lstrip_not_blank s)) as Hhead.
  split_and!; [done|apply rstrip_not_blank|].
  by rewrite (lstrip_fixed _ Hhead), rstrip_idem.
Qed.

(** A string that ends in a visible, non-empty tail is not shortened. *)
Lemma rstrip_append (a b : string) :
  b ≠ "" → rstrip b = b → rstrip (a ++ b) = a ++ b.
Proof.
  intros Hb Hfix. induction a as [|c a IH]; simpl; [done|].
  rewrite IH. destruct (a ++ b) as [|d r] eqn:E; [|done].
  destruct a; simpl in E; [by subst|done].
Qed.

Lemma rstrip_all_chars (p : ascii → bool) (s : string) :
  all_chars p s = true → all_chars p (rstrip s) = true.
Proof.
  induction s as [|c s IH]; simpl; [done|].
  intros [Hc Hs]%andb_true_iff. specialize (IH Hs).
  destruct (rstrip s); simpl in *; [|by rewrite Hc].
  destruct (isspace c); simpl; by rewrite ?Hc.
Qed.

(** Replacing one character, character by character. *)
Lemma replace_char_cons (c x : ascii) (new s : string) :
  replace (String c "") new (String x s)
  = if Ascii.eqb c x then new ++ replace (String c "") new s
    else String x (replace (String c "") new s).
Proof.
  unfold replace, split. cbn [split_from]. unfold startswith. simpl.
  destruct (Ascii.eqb c x).
  - by rewrite join_cons by apply split_from_nonempty.
  - destruct (split_from (String c "") 0 s) as [|piece rest] eqn:E.
    { by apply split_from_nonempty in E. }
    by destruct rest.
Qed.

(** After the replacement, every character is one of the replacement text
    or an old character other than the replaced one. *)
Lemma replace_char_all (c : ascii) (new s : string) (p : ascii → bool) :
  all_chars p new = true →
  all_chars (fun x => Ascii.eqb c x || p x) s = true →
  all_chars p (replace (String c "") new s) = true.
Proof.
  intros Hnew. induction s as [|x s IH]; [done|].
  rewrite replace_char_cons. simpl. intros [Hx Hs]%andb_true_iff.
  destruct (Ascii.eqb c x); simpl in *.
  - by rewrite all_chars_append, Hnew, IH.
  - by rewrite Hx, IH.
Qed.

Lemma first_span_head (stop : ascii → bool) (s : string) :
  starts_blank s = false → starts_blank (fst (span stop s)) = false.
Proof.
  destruct s as [|c s]; simpl; [done|]. intros Hc.
  destruct (stop c); [done|]. by destruct (span stop s).
Qed.

End MoreStringFacts.

(** ** Further properties: backend.py *)

Section MoreBackendFacts.

Lemma param_parsed (req : request) (key default : string) :
  parsed (query req) → ∃ value, Backend.param req key default = Ok value.
Proof.
  intros Hparsed. unfold Backend.param, index.
  destruct (query req !! key) as [values|] eqn:E; simpl; [|by eexists].
  destruct values as [|value rest]; [by destruct (Hparsed key [] E)|by eexists].
Qed.

Lemma generate_fallback_urls_raises (url : string) :
  (∃ e, Backend.generate_fallback_urls url = Raise e) ↔ bare_host url.
Proof.
  unfold bare_host. rewrite <- extract_video_id_raises.
  unfold Backend.generate_fallback_urls.
  destruct (Backend.extract_video_id url) as [id|e]; simpl.
  - split; by intros [e [=]].
  - split; intros _; by eexists.
Qed.

End MoreBackendFacts.

(** ** Further properties: the theorems *)

Section MoreProperties.

Import Normalizer Selection.

(** X1.  The normalizers return the highest heights: the height of every
    input record that is not audio-only and has a non-zero height is in the
    output, or the output is full (5 entries in backend.py, 10 in app.py)
    and every height in it is greater. *)
Theorem normalizer_keeps_top_heights (formats : list format) (fmt : format) (h : Z) :
  fmt ∈ formats → qualifies fmt h →
  (h ∈ map height (Backend.extract_formats formats)
   ∨ (length (Backend.extract_formats formats) = 5%nat
      ∧ Forall (fun h' => h < h') (map height (Backend.extract_formats formats))))
  ∧ (h ∈ map height (take 10 (App.collect_formats formats))
     ∨ (length (take 10 (App.collect_formats formats)) = 10%nat
        ∧ Forall (fun h' => h < h') (map height (take 10 (App.collect_formats formats))))).
Proof.
  intros Hfmt Hq. rewrite extract_formats_unfold, collect_formats_unfold.
  split; by eapply normalize_top.
Qed.

Lemma normalizer_keeps_top_heights_witness :
  720 ∈ map height
          (Backend.extract_formats [Examples.audio "140"; Examples.video 720 "22"])
  ∨ (length (Backend.extract_formats [Examples.audio "140"; Examples.video 720 "22"])
     = 5%nat
     ∧ Forall (fun h' => 720 < h')
         (map height
            (Backend.extract_formats [Examples.audio "140"; Examples.video 720 "22"]))).
Proof.
  refine (proj1 (normalizer_keeps_top_heights
                   [Examples.audio "140"; Examples.video 720 "22"]
                   (Examples.video 720 "22") 720 _ _)).
  - apply list_elem_of_further, list_elem_of_here.
  - split_and!; [by intros [=]|reflexivity|lia].
Defined.

(** X2.  First seen wins: every entry of the output is built from the record
    that stands first in the input among the records that are not
    audio-only and have the entry's height. *)
Theorem normalizer_first_seen_wins (formats : list format) (e : format_entry) :
  (e ∈ Backend.extract_formats formats →
     ∃ fmt, first_with formats fmt (height e) ∧ e = Backend.entry fmt (height e))
  ∧ (e ∈ take 10 (App.collect_formats formats) →
     ∃ fmt, first_with formats fmt (height e) ∧ e = App.entry fmt (height e)).
Proof.
  rewrite extract_formats_unfold, collect_formats_unfold.
  split; by apply normalize_first_seen.
Qed.

Lemma normalizer_first_seen_wins_witness :
  ∃ fmt, first_with [Examples.video 720 "22"; Examples.video 720 "136"] fmt 720
         ∧ Backend.entry (Examples.video 720 "22") 720 = Backend.entry fmt 720.
Proof.
  refine (proj1 (normalizer_first_seen_wins
                   [Examples.video 720 "22"; Examples.video 720 "136"]
                   (Backend.entry (Examples.video 720 "22") 720)) _).
  vm_compute. apply list_elem_of_here.
Defined.

(** X3.  The heights of the output do not depend on the order of the input:
    two inputs that are permutations of each other give the same list of
    heights (the entries themselves may differ, by the first-seen rule). *)
Theorem normalizer_heights_order_free (formats formats' : list format) :
  formats ≡ₚ formats' →
  map height (Backend.extract_formats formats)
  = map height (Backend.extract_formats formats')
  ∧ map height (take 10 (App.collect_formats formats))
    = map height (take 10 (App.collect_formats formats')).
Proof.
  intros Hperm. rewrite !extract_formats_unfold, !collect_formats_unfold.
  split; by apply normalize_heights_perm.
Qed.

Lemma normalizer_heights_order_free_witness :
  map height (Backend.extract_formats [Examples.video 720 "22"; Examples.video 1080 "137"])
  = map height (Backend.extract_formats [Examples.video 1080 "137"; Examples.video 720 "22"]).
Proof.
  refine (proj1 (normalizer_heights_order_free
                   [Examples.video 720 "22"; Examples.video 1080 "137"]
                   [Examples.video 1080 "137"; Examples.video 720 "22"] _)).
  apply Permutation_swap.
Defined.

(** X4.  When [do_GET] of backend.py ends in an exception instead of a body:
    for a query as [parse_qs] builds it, exactly when the request is
    [/video-info] or [/download] with a non-empty URL, the call to yt-dlp
    fails, and the URL is one of the bare host [youtu.be], on which the
    fallback generator raises in the [except] branch. *)
Theorem backend_do_GET_raises (sys : Backend.system) (req : request) :
  parsed (query req) →
  (∃ e, Backend.do_GET sys req = Raise e) ↔
  ∃ url, Backend.param req "url" "" = Ok url ∧ url ≠ "" ∧ bare_host url
         ∧ ((path req = "/video-info" ∧ ∃ e, Backend.get_video_info sys url = Raise e)
            ∨ (path req = "/download"
               ∧ ∃ quality e, Backend.param req "quality" "best" = Ok quality
                              ∧ Backend.get_download_url sys url quality = Raise e)).
Proof.
  intros Hparsed.
  destruct (param_parsed req "url" "" Hparsed) as [url Hurl].
  destruct (param_parsed req "quality" "best" Hparsed) as [quality Hquality].
  unfold Backend.do_GET.
  destruct (String.eqb_spec (path req) "/video-info") as [Hpath|Hpath].
  - rewrite Hurl. simpl. destruct (String.eqb_spec url "") as [->|Hne]; simpl.
    { split; [by intros [e He]|]. intros (u & Hu & Hne & _). congruence. }
    destruct (Backend.get_video_info sys url) as [answer|e] eqn:Einfo; simpl.
    { split; [by intros [e He]|].
      intros (u & Hu & _ & _ & [[_ [e He]]|[Hp _]]); congruence. }
    destruct (Backend.generate_fallback_urls url) as [fallback|e'] eqn:Efb; simpl.
    + split; [by intros [e0 He0]|].
      intros (u & Hu & _ & Hbare%generate_fallback_urls_raises & _).
      destruct Hbare as [e0 He0]. congruence.
    + split; [|by eexists]. intros _. exists url. split_and!; [done..| |].
      * apply generate_fallback_urls_raises. by eexists.
      * left. split; [done|by eexists].
  - destruct (String.eqb_spec (path req) "/download") as [Hpath'|Hpath']; simpl.
    + rewrite Hurl. simpl. rewrite Hquality. simpl.
      destruct (String.eqb_spec url "") as [->|Hne]; simpl.
      { split; [by intros [e He]|]. intros (u & Hu & Hne & _). congruence. }
      destruct (Backend.get_download_url sys url quality) as [answer|e] eqn:Edl; simpl.
      { split; [by intros [e He]|].
        intros (u & Hu & _ & _ & [[Hp _]|[_ (q & e & Hq & He)]]); congruence. }
      destruct (Backend.generate_fallback_urls url) as [fallback|e'] eqn:Efb; simpl.
      * split; [by intros [e0 He0]|].
        intros (u & Hu & _ & Hbare%generate_fallback_urls_raises & _).
        destruct Hbare as [e0 He0]. congruence.
      * split; [|by eexists]. intros _. exists url. split_and!; [done..| |].
        -- apply generate_fallback_urls_raises. by eexists.
        -- right. split; [done|]. by exists quality, e.
    + split; [by intros [e He]|].
      intros (u & _ & _ & _ & [[Hp _]|[Hp _]]); congruence.
Qed.

Lemma backend_do_GET_raises_witness :
  ∃ e, Backend.do_GET Examples.failing_system
         (Examples.url_request "/download" "https://youtu.be") = Raise e.
Proof.
  refine (proj2 (backend_do_GET_raises Examples.failing_system
                   (Examples.url_request "/download" "https://youtu.be") _) _).
  - intros key values Hlookup. simpl in Hlookup.
    apply lookup_singleton_Some in Hlookup as [_ <-]. done.
  - exists "https://youtu.be". split_and!; [by vm_compute|done| |].
    + split_and!; by vm_compute.
    + right. split; [done|].
      exists "best",
        (Exn Exception "Download URL generation failed: yt-dlp error: ERROR: Unsupported URL").
      split; by vm_compute.
Defined.

(** X5.  [get_download_url] and [get_video_info] of backend.py raise
    exactly when something fails inside their [try], and what they raise is
    a plain [Exception] made from the exception in flight: the fixed timeout
    text when that is a [TimeoutExpired], the fixed text for a missing
    yt-dlp when it is a [FileNotFoundError] ([get_video_info] only), and
    otherwise the text of that very exception behind the prefix of the
    function.  After an exit with a status other than 0 the exception in
    flight is the function's own, with yt-dlp's standard error output. *)
Theorem backend_errors_wrapped (sys : Backend.system) (url quality : string)
    (raised : exn) :
  (Backend.get_download_url sys url quality = Raise raised ↔
   ∃ e, Failure.yt_dlp sys
          ["yt-dlp"; "--get-url"; "-f"; Backend.format_selector quality; url] e
        ∧ raised
          = Exn Exception
              match exn_cls e with
              | TimeoutExpired => "Request timeout - download URL generation took too long"
              | _ => "Download URL generation failed: " ++ exn_str e
              end)
  ∧ (Backend.get_video_info sys url = Raise raised ↔
     ∃ e, Failure.video_info sys url e
          ∧ raised
            = Exn Exception
                match exn_cls e with
                | TimeoutExpired => "Request timeout - video processing took too long"
                | FileNotFoundError => "yt-dlp not found - please install it"
                | _ => "Video info extraction failed: " ++ exn_str e
                end).
Proof.
  unfold Backend.get_download_url, Backend.get_video_info. cbv zeta. split; split.
  - destruct (Backend.ensure_ytdlp_installed sys) as [[]|e0] eqn:Echeck;
      cbn [mbind result_bind bind].
    + destruct (Backend.run sys _) as [result|e0] eqn:Erun;
        cbn [mbind result_bind bind].
      * destruct (Z.eqb_spec (Backend.returncode result) 0) as [Hrc|Hrc]; [done|].
        cbn [exn_cls exn_str]. intros [= <-].
        exists (Exn Exception ("yt-dlp error: " ++ Backend.stderr result)).
        split; [|done]. by apply Failure.exit_status.
      * intros H. exists e0. split; [by apply Failure.process|].
        destruct (exn_cls e0); by injection H as <-.
    + intros H. exists e0. split; [by apply Failure.install_check|].
      destruct (exn_cls e0); by injection H as <-.
  - intros (e & [e0 Hcheck|e0 Hcheck Hrun|result Hcheck Hrun Hrc] & ->).
    + rewrite Hcheck. cbn [mbind result_bind bind]. by destruct (exn_cls e0).
    + rewrite Hcheck. cbn [mbind result_bind bind]. rewrite Hrun.
      cbn [mbind result_bind bind]. by destruct (exn_cls e0).
    + rewrite Hcheck. cbn [mbind result_bind bind]. rewrite Hrun.
      cbn [mbind result_bind bind].
      by destruct (Z.eqb_spec (Backend.returncode result) 0).
  - destruct (Backend.ensure_ytdlp_installed sys) as [[]|e0] eqn:Echeck;
      cbn [mbind result_bind bind].
    + destruct (Backend.run sys _) as [result|e0] eqn:Erun;
        cbn [mbind result_bind bind].
      * destruct (Z.eqb_spec (Backend.returncode result) 0) as [Hrc|Hrc].
        -- destruct (Backend.loads sys _) as [i|e0] eqn:Eloads;
             cbn [mbind result_bind bind].
           ++ destruct (iterable _) as [formats|e0] eqn:Eformats;
                cbn [mbind result_bind bind]; [done|].
              intros H. exists e0. split.
              ** by apply Failure.formats_value with (result := result) (i := i).
              ** destruct (exn_cls e0); by injection H as <-.
           ++ intros H. exists e0. split.
              ** by apply Failure.parse with (result := result).
              ** destruct (exn_cls e0); by injection H as <-.
        -- cbn [exn_cls exn_str]. intros [= <-].
           exists (Exn Exception ("yt-dlp error: " ++ Backend.stderr result)).
           split; [|done]. by apply Failure.command, Failure.exit_status.
      * intros H. exists e0. split; [by apply Failure.command, Failure.process|].
        destruct (exn_cls e0); by injection H as <-.
    + intros H. exists e0. split; [by apply Failure.command, Failure.install_check|].
      destruct (exn_cls e0); by injection H as <-.
  - intros (e & [e0 [e1 Hcheck|e1 Hcheck Hrun|result Hcheck Hrun Hrc]
                |result e0 Hcheck Hrun Hrc Hloads
                |result i e0 Hcheck Hrun Hrc Hloads Hformats] & ->).
    + rewrite Hcheck. cbn [mbind result_bind bind]. by destruct (exn_cls e1).
    + rewrite Hcheck. cbn [mbind result_bind bind]. rewrite Hrun.
      cbn [mbind result_bind bind]. by destruct (exn_cls e1).
    + rewrite Hcheck. cbn [mbind result_bind bind]. rewrite Hrun.
      cbn [mbind result_bind bind].
      by destruct (Z.eqb_spec (Backend.returncode result) 0).
    + rewrite Hcheck. cbn [mbind result_bind bind]. rewrite Hrun.
      cbn [mbind result_bind bind]. rewrite Hrc, Hloads.
      cbn [mbind result_bind bind Z.eqb]. by destruct (exn_cls e0).
    + rewrite Hcheck. cbn [mbind result_bind bind]. rewrite Hrun.
      cbn [mbind result_bind bind]. rewrite Hrc, Hloads.
      cbn [mbind result_bind bind Z.eqb]. rewrite Hformats.
      cbn [mbind result_bind bind]. by destruct (exn_cls e0).
Qed.

Lemma backend_errors_wrapped_witness :
  Backend.get_download_url Examples.failing_system "https://youtu.be/XYZ789" "best"
  = Raise (Exn Exception
             "Download URL generation failed: yt-dlp error: ERROR: Unsupported URL")
  ∧ Backend.get_video_info Examples.failing_system "https://youtu.be/XYZ789"
    = Raise (Exn Exception
               "Video info extraction failed: yt-dlp error: ERROR: Unsupported URL").
Proof.
  split.
  - apply (proj1 (backend_errors_wrapped Examples.failing_system
                    "https://youtu.be/XYZ789" "best" _)).
    exists (Exn Exception "yt-dlp error: ERROR: Unsupported URL"). split; [|done].
    by apply (Failure.exit_status Examples.failing_system _
                (Backend.Completed 1 "" "ERROR: Unsupported URL")).
  - apply (proj2 (backend_errors_wrapped Examples.failing_system
                    "https://youtu.be/XYZ789" "best" _)).
    exists (Exn Exception "yt-dlp error: ERROR: Unsupported URL"). split; [|done].
    apply Failure.command.
    by apply (Failure.exit_status Examples.failing_system _
                (Backend.Completed 1 "" "ERROR: Unsupported URL")).
Defined.

(** X6.  [get_download_url] returns exactly when the installation check
    passes and yt-dlp exits with status 0, and the URL it returns is the
    first line of what yt-dlp printed, the white space around the output
    stripped: the stripped output is that URL followed by nothing or by a
    newline and the other lines, and the URL holds no newline.  It does not
    start with white space. *)
Theorem download_url_is_first_line (sys : Backend.system) (url quality download_url : string) :
  (Backend.get_download_url sys url quality = Ok download_url ↔
   Backend.ensure_ytdlp_installed sys = Ok ()
   ∧ ∃ result rest,
       Backend.run sys ["yt-dlp"; "--get-url"; "-f"; Backend.format_selector quality; url]
       = Ok result
       ∧ Backend.returncode result = 0
       ∧ strip (Backend.stdout result) = download_url ++ rest
       ∧ all_chars (fun c => negb (Ascii.eqb newline c)) download_url = true
       ∧ (rest = "" ∨ ∃ lines, rest = String newline lines))
  ∧ (Backend.get_download_url sys url quality = Ok download_url →
     starts_blank download_url = false).
Proof.
  unfold Backend.get_download_url. cbv zeta. split; [split|].
  - destruct (Backend.ensure_ytdlp_installed sys) as [[]|e0]; cbn [mbind result_bind bind];
      [|by destruct (exn_cls e0)].
    destruct (Backend.run sys _) as [result|e0] eqn:Erun; cbn [mbind result_bind bind];
      [|by destruct (exn_cls e0)].
    destruct (Z.eqb_spec (Backend.returncode result) 0) as [Hrc|Hrc]; [|done].
    intros [= <-]. rewrite first_split_char. split; [done|].
    destruct (span (Ascii.eqb newline) (strip (Backend.stdout result)))
      as [line rest] eqn:Espan.
    apply span_spec in Espan as (Heq & Hline & Hrest).
    exists result, rest. split_and!; [done..|].
    destruct rest as [|c rest]; [by left|right].
    cbn [ends_or_meets] in Hrest. apply Ascii.eqb_eq in Hrest as <-. by exists rest.
  - intros (-> & result & rest & -> & Hrc & Hout & Hline & Hrest).
    cbn [mbind result_bind bind]. rewrite Hrc. cbn [Z.eqb].
    rewrite first_split_char, Hout, (span_captured _ _ _ Hline); [done|].
    destruct Hrest as [->|[lines ->]]; [done|]. cbn [ends_or_meets].
    apply Ascii.eqb_refl.
  - destruct (Backend.ensure_ytdlp_installed sys) as [[]|e0]; cbn [mbind result_bind bind];
      [|by destruct (exn_cls e0)].
    destruct (Backend.run sys _) as [result|e0] eqn:Erun; cbn [mbind result_bind bind];
      [|by destruct (exn_cls e0)].
    destruct (Z.eqb_spec (Backend.returncode result) 0) as [Hrc|Hrc]; [|done].
    intros [= <-]. rewrite first_split_char.
    apply first_span_head, strip_trimmed.
Qed.

Lemma download_url_is_first_line_witness :
  Backend.get_download_url Examples.working_system "https://youtu.be/XYZ789" "720"
  = Ok "https://cdn/22".
Proof.
  apply (download_url_is_first_line Examples.working_system "https://youtu.be/XYZ789"
           "720" "https://cdn/22").
  split; [done|].
  exists (Backend.Completed 0 ("https://cdn/22" ++ String newline "https://cdn/140") ""),
    (String newline "https://cdn/140").
  split_and!; [done|done|by vm_compute|by vm_compute|].
  right. by exists "https://cdn/140".
Defined.

Lemma replace_char_absent (c : ascii) (new s : string) :
  all_chars (fun x => negb (Ascii.eqb c x)) s = true → replace (String c "") new s = s.
Proof.
  induction s as [|x s IH]; [done|].
  rewrite replace_char_cons. cbn [all_chars]. intros [Hx Hs]%andb_true_iff.
  apply negb_true_iff in Hx. by rewrite Hx, IH.
Qed.

Lemma escape_free (url : string) :
  all_chars (fun c => negb (Ascii.eqb "&" c) && negb (Ascii.eqb "=" c))
    (replace "=" "%3D" (replace "&" "%26" url)) = true.
Proof.
  apply replace_char_all; [done|].
  eapply all_chars_impl;
    [|apply (replace_char_all "&" "%26" url (fun c => negb (Ascii.eqb "&" c)))].
  - intros c Hc. cbv beta in *. rewrite Hc. by destruct (Ascii.eqb "=" c).
  - done.
  - induction url as [|c url IH]; [done|].
    cbn [all_chars]. rewrite IH. by destruct (Ascii.eqb "&" c).
Qed.

(** The two replacements of line 150, one after the other, come to one
    pass over the URL: the text put in for [&] holds no [=]. *)
Lemma escape_escaped (url : string) :
  replace "=" "%3D" (replace "&" "%26" url) = escaped url.
Proof.
  induction url as [|c url IH]; [done|].
  rewrite replace_char_cons. cbn [escaped].
  destruct (Ascii.eqb_spec "&" c) as [<-|Hamp].
  - change ("%26" ++ replace "&" "%26" url)
      with (String "%" (String "2" (String "6" (replace "&" "%26" url)))).
    do 3 rewrite replace_char_cons. by rewrite IH.
  - rewrite replace_char_cons, IH.
    destruct (Ascii.eqb_spec c "&") as [->|_]; [done|].
    destruct (Ascii.eqb_spec "=" c) as [<-|Heq]; [done|].
    by destruct (Ascii.eqb_spec c "=") as [->|_].
Qed.

(** X7.  The fallback links hold the input URL escaped: in every fallback
    set, the values of the four services that take the URL are their fixed
    prefix followed by the input URL with each [&] written [%26], each [=]
    written [%3D] and every other character as it stands, and the y2mate
    value holds what [extract_video_id] returns.  The embedded text holds no
    [&] and no [=], and escaping it again leaves it as it is. *)
Theorem fallback_urls_escape_complete (url : string) (urls : list (string * string)) :
  Backend.generate_fallback_urls url = Ok urls →
  (∃ video_id,
     Backend.extract_video_id url = Ok video_id
     ∧ urls = [("savefrom", "https://savefrom.net/#url=" ++ escaped url);
               ("y2mate", "https://www.y2mate.com/youtube/" ++ video_id);
               ("keepvid", "https://keepvid.com/?url=" ++ escaped url);
               ("clipconverter", "https://www.clipconverter.cc/2/#url=" ++ escaped url);
               ("onlinevideoconverter",
                "https://www.onlinevideoconverter.com/success?url=" ++ escaped url)])
  ∧ all_chars (fun c => negb (Ascii.eqb "&" c) && negb (Ascii.eqb "=" c)) (escaped url)
    = true
  ∧ escaped (escaped url) = escaped url.
Proof.
  unfold Backend.generate_fallback_urls.
  destruct (Backend.extract_video_id url) as [video_id|e]; simpl; [|done].
  intros [= <-]. pose proof (escape_free url) as Hfree.
  rewrite escape_escaped in Hfree |- *.
  split_and!; [by exists video_id|done|].
  rewrite <- (escape_escaped (escaped url)).
  rewrite (replace_char_absent "&").
  - apply replace_char_absent. eapply all_chars_impl; [|exact Hfree].
    intros c Hc. cbv beta in Hc. by apply andb_true_iff in Hc as [_ ?].
  - eapply all_chars_impl; [|exact Hfree].
    intros c Hc. cbv beta in Hc. by apply andb_true_iff in Hc as [? _].
Qed.

Lemma fallback_urls_escape_complete_witness :
  (∃ video_id,
     Backend.extract_video_id "https://youtu.be/XYZ789?t=5&x=1" = Ok video_id
     ∧ [("savefrom", "https://savefrom.net/#url=https://youtu.be/XYZ789?t%3D5%26x%3D1");
        ("y2mate", "https://www.y2mate.com/youtube/XYZ789");
        ("keepvid", "https://keepvid.com/?url=https://youtu.be/XYZ789?t%3D5%26x%3D1");
        ("clipconverter",
         "https://www.clipconverter.cc/2/#url=https://youtu.be/XYZ789?t%3D5%26x%3D1");
        ("onlinevideoconverter",
         "https://www.onlinevideoconverter.com/success?url=https://youtu.be/XYZ789?t%3D5%26x%3D1")]
       = [("savefrom",
           "https://savefrom.net/#url=" ++ escaped "https://youtu.be/XYZ789?t=5&x=1");
          ("y2mate", "https://www.y2mate.com/youtube/" ++ video_id);
          ("keepvid",
           "https://keepvid.com/?url=" ++ escaped "https://youtu.be/XYZ789?t=5&x=1");
          ("clipconverter",
           "https://www.clipconverter.cc/2/#url="
           ++ escaped "https://youtu.be/XYZ789?t=5&x=1");
          ("onlinevideoconverter",
           "https://www.onlinevideoconverter.com/success?url="
           ++ escaped "https://youtu.be/XYZ789?t=5&x=1")])
  ∧ all_chars (fun c => negb (Ascii.eqb "&" c) && negb (Ascii.eqb "=" c))
      (escaped "https://youtu.be/XYZ789?t=5&x=1") = true
  ∧ escaped (escaped "https://youtu.be/XYZ789?t=5&x=1")
    = escaped "https://youtu.be/XYZ789?t=5&x=1".
Proof.
  apply (fallback_urls_escape_complete "https://youtu.be/XYZ789?t=5&x=1").
  by vm_compute.
Defined.

Lemma get_youtube_info_returns (fetch : SimpleBackend.fetcher) (video_id : string) :
  ∃ title, SimpleBackend.get_youtube_info fetch video_id
           = Ok (JObj [("title", JStr title)]).
Proof.
  unfold SimpleBackend.get_youtube_info.
  destruct (fetch _) as [html|e]; simpl; by eexists.
Qed.

Lemma index_parsed (query_params : gmap string (list string)) (key : string)
    (values : list string) :
  parsed query_params → query_params !! key = Some values →
  ∃ value, index values 0 = Ok value.
Proof.
  intros Hparsed Hvalues. destruct values as [|value rest]; [|by eexists].
  by destruct (Hparsed key [] Hvalues).
Qed.

(** X8.  The scrape-only server always answers: for a query as [parse_qs]
    builds it, [do_GET] of simple_backend.py returns status 200 and a body
    that either reports success, with no error, or reports failure with one
    of the three messages ['URL parameter required'], ['Invalid YouTube
    URL'] and ['Invalid endpoint'].  The message of the [except] branch of
    [handle_video_info] never appears. *)
Theorem simple_do_GET_always_answers (fetch : SimpleBackend.fetcher) (req : request) :
  parsed (query req) →
  ∃ answer,
    SimpleBackend.do_GET fetch req = Ok {| status := 200; body := answer |}
    ∧ ((member "success" answer = Some (JBool true) ∧ member "error" answer = None)
       ∨ (member "success" answer = Some (JBool false)
          ∧ ∃ message, member "error" answer = Some (JStr message)
                       ∧ message ∈ ["URL parameter required"; "Invalid YouTube URL";
                                    "Invalid endpoint"])).
Proof.
  intros Hparsed. unfold SimpleBackend.do_GET.
  assert (Hrefuse : ∀ message,
            message ∈ ["URL parameter required"; "Invalid YouTube URL"; "Invalid endpoint"] →
            ∃ answer,
              (Ok (SimpleBackend.send_error_response message)
                 ≫= λ body, Ok {| status := 200; body := body |})
              = Ok {| status := 200; body := answer |}
              ∧ ((member "success" answer = Some (JBool true)
                  ∧ member "error" answer = None)
                 ∨ (member "success" answer = Some (JBool false)
                    ∧ ∃ m, member "error" answer = Some (JStr m)
                           ∧ m ∈ ["URL parameter required"; "Invalid YouTube URL";
                                  "Invalid endpoint"]))).
  { intros message Hm. eexists. split; [reflexivity|]. right. split; [done|].
    by exists message. }
  destruct (String.eqb (path req) "/video-info").
  - unfold SimpleBackend.handle_video_info.
    destruct (query req !! "url") as [values|] eqn:Eurl;
      [|apply Hrefuse, list_elem_of_here].
    destruct (index_parsed _ _ _ Hparsed Eurl) as [video_url ->]. simpl.
    destruct (SimpleBackend.falsy _) eqn:Efalsy;
      [apply Hrefuse, list_elem_of_further, list_elem_of_here|].
    destruct (get_youtube_info_returns fetch
                (SimpleBackend.id_text (SimpleBackend.extract_youtube_id video_url)))
      as [title ->].
    eexists. split; [reflexivity|]. by left.
  - destruct (String.eqb (path req) "/download").
    + unfold SimpleBackend.handle_download.
      destruct (query req !! "url") as [values|] eqn:Eurl;
        [|apply Hrefuse, list_elem_of_here].
      destruct (index_parsed _ _ _ Hparsed Eurl) as [video_url ->]. simpl.
      assert (∃ quality, index (default_list (query req !! "quality") ["720"]) 0
                         = Ok quality) as [quality ->].
      { destruct (query req !! "quality") as [values'|] eqn:Eq; [|by eexists].
        apply (index_parsed _ _ _ Hparsed Eq). }
      simpl. destruct (SimpleBackend.falsy _);
        [apply Hrefuse, list_elem_of_further, list_elem_of_here|].
      eexists. split; [reflexivity|]. by left.
    + apply Hrefuse. by do 2 apply list_elem_of_further; apply list_elem_of_here.
Qed.

Lemma simple_do_GET_always_answers_witness :
  ∃ answer,
    SimpleBackend.do_GET Examples.offline
      (Examples.url_request "/video-info" "https://youtu.be/XYZ789")
    = Ok {| status := 200; body := answer |}
    ∧ ((member "success" answer = Some (JBool true) ∧ member "error" answer = None)
       ∨ (member "success" answer = Some (JBool false)
          ∧ ∃ message, member "error" answer = Some (JStr message)
                       ∧ message ∈ ["URL parameter required"; "Invalid YouTube URL";
                                    "Invalid endpoint"])).
Proof.
  apply (simple_do_GET_always_answers Examples.offline
           (Examples.url_request "/video-info" "https://youtu.be/XYZ789")).
  intros key values Hlookup. simpl in Hlookup.
  apply lookup_singleton_Some in Hlookup as [_ <-]. done.
Defined.

Lemma search_skip (at_head : string → option string) (c : ascii) (s : string) :
  at_head (String c s) = None → search at_head (String c s) = search at_head s.
Proof. intros H. simpl. by rewrite H. Qed.

Lemma search_here (at_head : string → option string) (s group : string) :
  at_head s = Some group → search at_head s = Some group.
Proof. intros H. destruct s; simpl; by rewrite H. Qed.

(** The watch page of an identifier leads back to the identifier. *)
Lemma watch_url_extracts (id : string) :
  id ≠ "" → all_chars (fun c => negb (SimpleBackend.id_stop c)) id = true →
  SimpleBackend.extract_youtube_id ("https://www.youtube.com/watch?v=" ++ id) = Some id.
Proof.
  intros Hne Hid. unfold SimpleBackend.extract_youtube_id.
  assert (Hgroup : SimpleBackend.id_group id = Some id).
  { rewrite <- (append_empty_r id) at 1. by apply id_group_captured. }
  change ("https://www.youtube.com/watch?v=" ++ id)
    with ("https://www." ++ ("youtube.com/watch?v=" ++ id)).
  assert (Hfound : search SimpleBackend.pattern1
                     ("https://www." ++ ("youtube.com/watch?v=" ++ id)) = Some id).
  { set (s := "youtube.com/watch?v=" ++ id).
    cbn [append]. do 12 (rewrite search_skip by reflexivity).
    subst s. apply search_here. unfold SimpleBackend.pattern1, SimpleBackend.shape.
    by rewrite strip_prefix_append, Hgroup. }
  by rewrite Hfound.
Qed.

(** X9.  Round trip of the identifier: the watch-page URL that
    [get_youtube_info] builds from an identifier extracted by
    [extract_youtube_id] yields the same identifier when it is put through
    [extract_youtube_id] again. *)
Theorem watch_url_round_trip (url id : string) :
  SimpleBackend.extract_youtube_id url = Some id →
  SimpleBackend.extract_youtube_id ("https://www.youtube.com/watch?v=" ++ id) = Some id.
Proof.
  intros Hid. unfold SimpleBackend.extract_youtube_id in Hid.
  apply orelse_Some in Hid as [H|[_ H]].
  - apply search_pattern1_Some in H as (? & ? & ? & _ & _ & Hne & Hrun & _).
    by apply watch_url_extracts.
  - apply search_pattern2_Some in H as (? & ? & ? & _ & _ & Hne & Hrun & _).
    by apply watch_url_extracts.
Qed.

Lemma watch_url_round_trip_witness :
  SimpleBackend.extract_youtube_id "https://www.youtube.com/watch?v=XYZ789" = Some "XYZ789".
Proof.
  apply (watch_url_round_trip "https://youtu.be/XYZ789?x=1" "XYZ789"). by vm_compute.
Defined.







(** X11.  A title read off a fetched page is trimmed: whenever the page
    fetch succeeds, the title [get_youtube_info] returns has no white space
    at its start or its end, and stripping it again leaves it as it is. *)
Theorem scraped_title_trimmed (fetch : SimpleBackend.fetcher) (video_id html : string) :
  fetch ("https://www.youtube.com/watch?v=" ++ video_id) = Ok html →
  ∃ title,
    SimpleBackend.get_youtube_info fetch video_id = Ok (JObj [("title", JStr title)])
    ∧ starts_blank title = false ∧ ends_blank title = false ∧ strip title = title.
Proof.
  intros Hfetch. unfold SimpleBackend.get_youtube_info. rewrite Hfetch.
  eexists. split; [reflexivity|]. apply strip_trimmed.
Qed.

Lemma scraped_title_trimmed_witness :
  ∃ title,
    SimpleBackend.get_youtube_info
      (Examples.page "<html><title>  Intro - YouTube  </title>") "XYZ789"
    = Ok (JObj [("title", JStr title)])
    ∧ starts_blank title = false ∧ ends_blank title = false ∧ strip title = title.
Proof.
  exact (scraped_title_trimmed (Examples.page "<html><title>  Intro - YouTube  </title>")
           "XYZ789" "<html><title>  Intro - YouTube  </title>" eq_refl).
Defined.

(** X12.  The selector app.py hands to yt-dlp holds nothing of the quality
    token but its digits: for every token the selector of [/stream] and of
    [/download] is ['bestaudio/best'], ['best'], ['worst'], or
    ['best[height<=N]'] with N a non-empty run of digits, and the target
    extension of [/download] is mp3 or mp4. *)
Theorem selector_holds_digits_only (quality : string) :
  (App.stream_format_selector quality ∈ ["bestaudio/best"; "best"; "worst"]
   ∨ ∃ digits, digits ≠ "" ∧ all_chars isdigit digits = true
               ∧ App.stream_format_selector quality = "best[height<=" ++ digits ++ "]")
  ∧ (fst (App.download_video_quality quality) ∈ ["bestaudio/best"; "best"; "worst"]
     ∨ ∃ digits, digits ≠ "" ∧ all_chars isdigit digits = true
                 ∧ fst (App.download_video_quality quality)
                   = "best[height<=" ++ digits ++ "]")
  ∧ snd (App.download_video_quality quality) ∈ ["mp3"; "mp4"].
Proof.
  unfold App.stream_format_selector, App.download_video_quality.
  assert (Hbw : quality ∈ ["best"; "worst"] → quality ∈ ["bestaudio/best"; "best"; "worst"]).
  { intros H. by apply list_elem_of_further. }
  assert (Hbest : "best" ∈ ["bestaudio/best"; "best"; "worst"]).
  { apply list_elem_of_further, list_elem_of_here. }
  case_bool_decide as Ha; [split_and!; [left; apply list_elem_of_here..|apply list_elem_of_here]|].
  case_bool_decide as Hb;
    [split_and!; [left; by apply Hbw..|apply list_elem_of_further, list_elem_of_here]|].
  destruct (String.eqb_spec (filter_chars isdigit quality) "") as [Hd|Hd]; simpl.
  - split_and!; [by left..|apply list_elem_of_further, list_elem_of_here].
  - split_and!; [right; exists (filter_chars isdigit quality)..
                |apply list_elem_of_further, list_elem_of_here];
      (split_and!; [done|apply all_chars_filter|done]).
Qed.

Lemma find_downloaded_Some (temp_dir file_id found : string) (files : list string) :
  App.find_downloaded temp_dir file_id files = Some found →
  ∃ before name after,
    files = (before ++ name :: after)%list
    ∧ startswith file_id name = true
    ∧ found = path_join temp_dir name
    ∧ Forall (fun file => startswith file_id file = false) before.
Proof.
  induction files as [|file files IH]; simpl; [done|].
  destruct (startswith file_id file) eqn:E.
  - intros [= <-]. by exists [], file, files.
  - intros (before & name & after & -> & Hname & -> & Hbefore)%IH.
    exists (file :: before), name, after. split_and!; [done..|]. by constructor.
Qed.


(** What a served file tells of the run of [download_video]. *)
Lemma download_video_Served (fs : App.filesystem) (extract_info : App.extractor)
    (url quality : string) (file : App.file_response) :
  App.download_video fs extract_info url quality = App.Served file →
  ∃ temp_dir i files downloaded_file file_size title,
    App.mkdtemp fs = Ok temp_dir
    ∧ extract_info
        (App.download_options
           (path_join temp_dir (prefix_chars 8 (App.uuid4 fs) ++ ".%(ext)s"))
           (fst (App.download_video_quality quality)) quality) url true = Ok i
    ∧ App.listdir fs temp_dir = Ok files
    ∧ App.find_downloaded temp_dir (prefix_chars 8 (App.uuid4 fs)) files
      = Some downloaded_file
    ∧ App.path_exists fs downloaded_file = true
    ∧ App.getsize fs downloaded_file = Ok file_size
    ∧ App.title_prefix fs (get (info_title i) (Some (JStr "video"))) = Ok title
    ∧ file = {| App.served_path := downloaded_file;
                App.media_type :=
                  (if String.eqb (snd (App.download_video_quality quality)) "mp3"
                   then "audio" else "video")
                  ++ "/" ++ snd (App.download_video_quality quality);
                App.filename :=
                  App.clean_filename
                    (title ++ "." ++ snd (App.download_video_quality quality));
                App.headers :=
                  [("Content-Length", str_int file_size);
                   ("Content-Disposition",
                    "attachment; filename=" ++ dquote
                    ++ App.clean_filename
                         (title ++ "." ++ snd (App.download_video_quality quality))
                    ++ dquote)] |}.
Proof.
  unfold App.download_video. cbv zeta.
  destruct (App.mkdtemp fs) as [temp_dir|e] eqn:Etemp; [|done].
  cbn [mbind result_bind bind].
  destruct (App.download_video_quality quality) as [format_selector ext].
  cbn [fst snd].
  destruct (extract_info _ url true) as [i|e] eqn:Einfo; [|done].
  cbn [mbind result_bind bind].
  destruct (App.listdir fs temp_dir) as [files|e] eqn:Efiles; [|done].
  cbn [mbind result_bind bind].
  destruct (App.find_downloaded _ _ files) as [downloaded_file|] eqn:Efound; [|done].
  destruct (String.eqb downloaded_file ""); [done|]. cbn [orb].
  destruct (App.path_exists fs downloaded_file) eqn:Eexists; [|done]. cbn [negb].
  destruct (App.getsize fs downloaded_file) as [file_size|e] eqn:Esize; [|done].
  cbn [mbind result_bind bind].
  destruct (App.title_prefix fs _) as [title|e] eqn:Etitle; [|done].
  cbn [mbind result_bind bind].
  intros [= <-]. by exists temp_dir, i, files, downloaded_file, file_size, title.
Qed.

Lemma quality_extension (quality : string) :
  snd (App.download_video_quality quality)
  = if bool_decide (quality ∈ ["audio"; "mp3"]) then "mp3" else "mp4".
Proof.
  unfold App.download_video_quality. repeat case_bool_decide; try done.
  by destruct (negb _).
Qed.

Lemma clean_filename_extension (title ext : string) :
  ext ∈ ["mp3"; "mp4"] →
  App.clean_filename (title ++ "." ++ ext)
  = filter_chars App.keep_char title ++ "." ++ ext.
Proof.
  intros Hext. unfold App.clean_filename. rewrite filter_chars_append.
  apply elem_of_cons in Hext as [->|Hext].
  - by apply rstrip_append.
  - apply list_elem_of_singleton in Hext as ->. by apply rstrip_append.
Qed.

Lemma length_filter_chars (p : ascii → bool) (s : string) :
  (String.length (filter_chars p s) ≤ String.length s)%nat.
Proof. induction s as [|c s IH]; simpl; [done|]. destruct (p c); simpl; lia. Qed.

Lemma length_prefix_chars (n : nat) (s : string) :
  (String.length (prefix_chars n s) ≤ n)%nat.
Proof.
  revert s. induction n as [|n IH]; intros [|c s]; simpl; try lia.
  specialize (IH s). lia.
Qed.





(** X14.  The file [download_video] serves is the first entry of the
    temporary directory's listing whose name starts with the first eight
    characters of the request's UUID, joined to the directory; the file
    exists, and the [Content-Length] header is its size in decimal. *)
Theorem served_file_is_first_match (fs : App.filesystem) (extract_info : App.extractor)
    (url quality : string) (file : App.file_response) :
  App.download_video fs extract_info url quality = App.Served file →
  ∃ temp_dir files before name after file_size,
    App.mkdtemp fs = Ok temp_dir
    ∧ App.listdir fs temp_dir = Ok files
    ∧ files = (before ++ name :: after)%list
    ∧ startswith (prefix_chars 8 (App.uuid4 fs)) name = true
    ∧ Forall (fun other => startswith (prefix_chars 8 (App.uuid4 fs)) other = false) before
    ∧ App.served_path file = path_join temp_dir name
    ∧ App.path_exists fs (App.served_path file) = true
    ∧ App.getsize fs (App.served_path file) = Ok file_size
    ∧ App.headers file
      = [("Content-Length", str_int file_size);
         ("Content-Disposition",
          "attachment; filename=" ++ dquote ++ App.filename file ++ dquote)].
Proof.
  intros (temp_dir & i & files & downloaded_file & file_size & title & Htemp & _ & Hfiles
          & Hfound & Hexists & Hsize & _ & ->)%download_video_Served.
  apply find_downloaded_Some in Hfound
    as (before & name & after & -> & Hname & -> & Hbefore).
  by exists temp_dir, (before ++ name :: after)%list, before, name, after, file_size.
Qed.

Lemma served_file_is_first_match_witness :
  ∃ temp_dir files before name after file_size,
    App.mkdtemp Examples.after_download = Ok temp_dir
    ∧ App.listdir Examples.after_download temp_dir = Ok files
    ∧ files = (before ++ name :: after)%list
    ∧ startswith (prefix_chars 8 (App.uuid4 Examples.after_download)) name = true
    ∧ Forall (fun other =>
                startswith (prefix_chars 8 (App.uuid4 Examples.after_download)) other
                = false) before
    ∧ "/tmp/tmpk3x9/8f14e45f.mp4" = path_join temp_dir name
    ∧ App.path_exists Examples.after_download "/tmp/tmpk3x9/8f14e45f.mp4" = true
    ∧ App.getsize Examples.after_download "/tmp/tmpk3x9/8f14e45f.mp4" = Ok file_size
    ∧ [("Content-Length", "1048576");
       ("Content-Disposition", "attachment; filename=" ++ dquote ++ "Intro.mp4" ++ dquote)]
      = [("Content-Length", str_int file_size);
         ("Content-Disposition",
          "attachment; filename=" ++ dquote ++ "Intro.mp4" ++ dquote)].
Proof.
  exact (served_file_is_first_match Examples.after_download
           (Examples.extractor_of Examples.two_formats_info) "https://youtu.be/XYZ789" "720p"
           {| App.served_path := "/tmp/tmpk3x9/8f14e45f.mp4";
              App.media_type := "video/mp4";
              App.filename := "Intro.mp4";
              App.headers :=
                [("Content-Length", "1048576");
                 ("Content-Disposition",
                  "attachment; filename=" ++ dquote ++ "Intro.mp4" ++ dquote)] |}
           eq_refl).
Defined.

Lemma keep_char_header_safe (c : ascii) :
  App.keep_char c = true → negb (breaks_header c) = true.
Proof. destruct c as [[] [] [] [] [] [] [] []]; by vm_compute. Qed.

(** X15.  The file name [download_video] serves is safe and keeps its
    extension: it is made of letters, digits, spaces, [-], [_] and [.]
    only, so it holds no double quote, slash, backslash or line break; it
    ends with [.mp3] for the tokens ['audio'] and ['mp3'] and with [.mp4]
    for every other token, the media type being [audio/mp3] and [video/mp4]
    accordingly; and for a title that is a string it is at most 54
    characters long. *)
Theorem served_filename_safe (fs : App.filesystem) (extract_info : App.extractor)
    (url quality : string) (file : App.file_response) :
  App.download_video fs extract_info url quality = App.Served file →
  all_chars App.keep_char (App.filename file) = true
  ∧ all_chars (fun c => negb (breaks_header c)) (App.filename file) = true
  ∧ (∃ stem, App.filename file
             = stem ++ (if bool_decide (quality ∈ ["audio"; "mp3"]) then ".mp3" else ".mp4"))
  ∧ App.media_type file
    = (if bool_decide (quality ∈ ["audio"; "mp3"]) then "audio/mp3" else "video/mp4")
  ∧ (∀ temp_dir i,
       App.mkdtemp fs = Ok temp_dir →
       extract_info
         (App.download_options
            (path_join temp_dir (prefix_chars 8 (App.uuid4 fs) ++ ".%(ext)s"))
            (fst (App.download_video_quality quality)) quality) url true = Ok i →
       (info_title i = Absent ∨ ∃ s, info_title i = Val (JStr s)) →
       (String.length (App.filename file) ≤ 54)%nat).
Proof.
  intros (temp_dir & i & files & downloaded_file & file_size & title & Htemp & Hinfo & _
          & _ & _ & _ & Htitle & ->)%download_video_Served.
  cbn [App.filename App.media_type].
  assert (Hkeep : all_chars App.keep_char
                    (App.clean_filename
                       (title ++ "." ++ snd (App.download_video_quality quality))) = true).
  { apply rstrip_all_chars, all_chars_filter. }
  assert (Hname : App.clean_filename
                    (title ++ "." ++ snd (App.download_video_quality quality))
                  = filter_chars App.keep_char title ++ "."
                    ++ snd (App.download_video_quality quality)).
  { apply clean_filename_extension. rewrite quality_extension.
    case_bool_decide; [apply list_elem_of_here|apply list_elem_of_further, list_elem_of_here]. }
  split_and!.
  - done.
  - eapply all_chars_impl; [apply keep_char_header_safe|done].
  - exists (filter_chars App.keep_char title). rewrite Hname, quality_extension.
    by case_bool_decide.
  - rewrite quality_extension. by case_bool_decide.
  - intros temp_dir' i' Htemp' Hinfo' Hstring.
    assert (temp_dir' = temp_dir) as -> by congruence.
    assert (i' = i) as -> by congruence.
    assert (∃ s, title = prefix_chars 50 s) as [s ->].
    { destruct Hstring as [Habsent|[s Hs]].
      - rewrite Habsent in Htitle. cbn [App.title_prefix get] in Htitle.
        injection Htitle as <-. by exists "video".
      - rewrite Hs in Htitle. cbn [App.title_prefix get] in Htitle.
        injection Htitle as <-. by exists s. }
    rewrite Hname, !length_append.
    pose proof (length_filter_chars App.keep_char (prefix_chars 50 s)).
    pose proof (length_prefix_chars 50 s).
    rewrite quality_extension. case_bool_decide; cbn [String.length]; lia.
Qed.

Lemma served_filename_safe_witness :
  all_chars App.keep_char "Intro.mp4" = true
  ∧ all_chars (fun c => negb (breaks_header c)) "Intro.mp4" = true
  ∧ (∃ stem, "Intro.mp4"
             = stem ++ (if bool_decide ("720p" ∈ ["audio"; "mp3"]) then ".mp3" else ".mp4"))
  ∧ "video/mp4" = (if bool_decide ("720p" ∈ ["audio"; "mp3"]) then "audio/mp3"
                   else "video/mp4").
Proof.
  destruct (served_filename_safe Examples.after_download
              (Examples.extractor_of Examples.two_formats_info) "https://youtu.be/XYZ789"
              "720p"
              {| App.served_path := "/tmp/tmpk3x9/8f14e45f.mp4";
                 App.media_type := "video/mp4";
                 App.filename := "Intro.mp4";
                 App.headers :=
                   [("Content-Length", "1048576");
                    ("Content-Disposition",
                     "attachment; filename=" ++ dquote ++ "Intro.mp4" ++ dquote)] |}
              eq_refl) as (H1 & H2 & H3 & H4 & _).
  by split_and!.
Defined.

(** X16.  A missing [formats] key and a [formats] key that holds [None]
    are told apart.  Without the key, [/info] of app.py and [get_video_info]
    of backend.py answer with success and an empty format list; with the key
    holding [None], the loop over it raises, which [/info] answers with
    status 400 and [get_video_info] passes on as its own exception. *)
Theorem formats_key_missing_or_null :
  (∀ (extract_info : App.extractor) (url : string) (i : info),
     extract_info [("quiet", JBool true); ("no_warnings", JBool true);
                   ("extract_flat", JBool false)] url false = Ok i →
     (info_formats i = Absent →
        status (App.get_video_info extract_info url) = 200
        ∧ member "success" (body (App.get_video_info extract_info url)) = Some (JBool true)
        ∧ member "formats" (body (App.get_video_info extract_info url)) = Some (JList []))
     ∧ (info_formats i = Null →
        App.get_video_info extract_info url
        = App.HTTPException 400
            "Failed to extract info: 'NoneType' object is not iterable"))
  ∧ (∀ (sys : Backend.system) (url : string) (result : Backend.completed) (i : info),
       Backend.ensure_ytdlp_installed sys = Ok () →
       Backend.run sys ["yt-dlp"; "--dump-json"; "--no-download"; url] = Ok result →
       Backend.returncode result = 0 →
       Backend.loads sys (first (split (String newline "") (Backend.stdout result))) = Ok i →
       (info_formats i = Absent →
          ∃ answer, Backend.get_video_info sys url = Ok answer
                    ∧ member "success" answer = Some (JBool true)
                    ∧ member "formats" answer = Some (JList []))
       ∧ (info_formats i = Null →
          Backend.get_video_info sys url
          = Raise (Exn Exception
                     "Video info extraction failed: 'NoneType' object is not iterable"))).
Proof.
  split.
  - intros extract_info url i Hinfo. unfold App.get_video_info, App.info_entries.
    rewrite Hinfo. cbn [mbind result_bind bind].
    split; intros ->; by vm_compute.
  - intros sys url result i Hens Hrun Hrc Hloads. unfold Backend.get_video_info.
    rewrite Hens. cbn [mbind result_bind bind]. rewrite Hrun.
    cbn [mbind result_bind bind]. rewrite Hrc. cbn [Z.eqb].
    rewrite Hloads. cbn [mbind result_bind bind].
    split; intros ->; [|by vm_compute].
    eexists. split; [reflexivity|]. by vm_compute.
Qed.

Lemma formats_key_missing_or_null_witness :
  status (App.get_video_info
            (Examples.extractor_of
               {| info_title := Absent; info_description := Absent; info_duration := Absent;
                  info_thumbnail := Absent; info_uploader := Absent;
                  info_view_count := Absent; info_formats := Absent; info_url := Absent |})
            "https://youtu.be/XYZ789") = 200
  ∧ App.get_video_info
      (Examples.extractor_of
         {| info_title := Absent; info_description := Absent; info_duration := Absent;
            info_thumbnail := Absent; info_uploader := Absent;
            info_view_count := Absent; info_formats := Null; info_url := Absent |})
      "https://youtu.be/XYZ789"
    = App.HTTPException 400 "Failed to extract info: 'NoneType' object is not iterable".
Proof.
  destruct formats_key_missing_or_null as [Happ _]. split.
  - by apply (Happ _ "https://youtu.be/XYZ789" _ eq_refl).
  - by apply (Happ _ "https://youtu.be/XYZ789" _ eq_refl).
Defined.

(** X17.  The two normalizers agree on the heights: the heights
    [extract_formats] of backend.py reports are the first five of the
    heights [/info] of app.py reports for the same records. *)
Theorem backend_heights_prefix_of_app (formats : list format) :
  map height (Backend.extract_formats formats)
  = take 5 (map height (take 10 (App.collect_formats formats))).
Proof.
  rewrite extract_formats_unfold, collect_formats_unfold, <- !firstn_map, take_take.
  change (5 `min` 10)%nat with 5%nat. f_equal.
  by apply sorted_heights_unique.
Qed.

End MoreProperties.
